(** * Reactions and statistics of the posts application

    A shallow embedding of [posts/models.py], [posts/serializers.py] and of
    the two function views of [posts/views.py], [toggle_like] and
    [post_stats], followed by the properties of the reaction toggle and of
    the statistics that the specification states.

    Database tables are finite maps from primary key to row.  The views run
    in a small state-and-exception monad over the database. *)

From stdpp Require Import gmap strings list fin_maps.
From Stdlib Require Import PrimFloat.

Local Open Scope string_scope.
Local Open Scope nat_scope.

(** ** models.py *)

(** [User = get_user_model()]: a primary key and the name [str(user)]
    prints. *)
Module User.
Record t := mk { pk : nat; username : string }.
End User.

(** [class Post].  The row is stored under its primary key [id].  The two
    coordinates are [FloatField(null=True)]: a binary64 number or NULL.  The
    image file is left out: no view below reads or writes it. *)
Module Post.
Record t := mk {
  author : User.t;
  text : string;
  location_name : string;
  created_at : nat;
  latitude : option float;
  longitude : option float
}.
End Post.

(** [class Like]: the reaction of one user to one post. *)
Module Like.
Definition LIKE : string := "like".
Definition DISLIKE : string := "dislike".

Record t := mk {
  user : User.t;
  post : nat;
  reaction : string;
  created_at : nat
}.
End Like.

(** [class Comment]. *)
Module Comment.
Record t := mk {
  author : User.t;
  post : nat;
  text : string;
  created_at : nat
}.
End Comment.

(** ** The database *)

(** A statement that changes the [Like] table. *)
Inductive Write :=
| INSERT (pk : nat) (row : Like.t)
| UPDATE (pk : nat) (row : Like.t)
| DELETE (pk : nat).

(** The primary key a write statement addresses. *)
Definition write_pk (w : Write) : nat :=
  match w with
  | INSERT pk _ | UPDATE pk _ | DELETE pk => pk
  end.

(** The three tables the views touch, each keyed by primary key, and the
    journal of the write statements issued so far. *)
Record Store := mkStore {
  posts : gmap nat Post.t;
  likes : gmap nat Like.t;
  comments : gmap nat Comment.t;
  queries : list Write
}.

(** The primary keys of [Like] in use or used before: those of the rows
    stored and those the journal names. *)
Definition issued (st : Store) : gset nat :=
  dom (likes st) ∪ list_to_set (write_pk <$> queries st).

(** The database after the write [w] left the [Like] table as [m]. *)
Definition with_likes (st : Store) (m : gmap nat Like.t) (w : Write) : Store :=
  {| posts := posts st; likes := m; comments := comments st;
     queries := queries st ++ [w] |}.

(** ** Exceptions and the monad of the views *)

Inductive Exn :=
| Http404
| DoesNotExist
| MultipleObjectsReturned
| IntegrityError
| TypeError
| AttributeError.

Inductive Outcome (A : Type) :=
| Ok (a : A)
| Raise (e : Exn).
Arguments Ok {A} a.
Arguments Raise {A} e.

Definition ORM (A : Type) : Type := Store → Outcome A * Store.

Definition ret {A} (a : A) : ORM A := λ st, (Ok a, st).

Definition raise {A} (e : Exn) : ORM A := λ st, (Raise e, st).

Definition bind {A B} (m : ORM A) (k : A → ORM B) : ORM B :=
  λ st, match m st with
        | (Ok a, st') => k a st'
        | (Raise e, st') => (Raise e, st')
        end.

Notation "'do' x <- m ; k" := (bind m (λ x, k))
  (at level 10, x name, m at level 100, k at level 200, only parsing).
Notation "'run' m ; k" := (bind m (λ _, k))
  (at level 10, m at level 100, k at level 200, only parsing).

(** ** Queries *)

(** The rows of [Like] with [user=u, post=p]; users are compared by
    primary key. *)
Definition for_pair (u : User.t) (p : nat) (kr : nat * Like.t) : Prop :=
  User.pk (Like.user kr.2) = User.pk u ∧ Like.post kr.2 = p.

Global Instance for_pair_dec u p kr : Decision (for_pair u p kr).
Proof. unfold for_pair. apply _. Defined.

(** [post.likes]: the rows of [Like] whose [post] is [p]. *)
Definition for_post (p : nat) (kr : nat * Like.t) : Prop :=
  Like.post kr.2 = p.

Global Instance for_post_dec p kr : Decision (for_post p kr).
Proof. unfold for_post. apply _. Defined.

(** [post.likes.filter(reaction=k)]. *)
Definition for_post_kind (p : nat) (k : string) (kr : nat * Like.t) : Prop :=
  Like.post kr.2 = p ∧ Like.reaction kr.2 = k.

Global Instance for_post_kind_dec p k kr : Decision (for_post_kind p k kr).
Proof. unfold for_post_kind. apply _. Defined.

(** [post.comments]. *)
Definition comment_of (p : nat) (kr : nat * Comment.t) : Prop :=
  Comment.post kr.2 = p.

Global Instance comment_of_dec p kr : Decision (comment_of p kr).
Proof. unfold comment_of. apply _. Defined.

(** [QuerySet.count()]. *)
Definition count {A} (m : gmap nat A) : nat := size m.

(** [get_object_or_404(Post, id=post_id)]: the instance, primary key and
    row, or [Http404]. *)
Definition get_object_or_404 (post_id : nat) : ORM (nat * Post.t) :=
  λ st, match posts st !! post_id with
        | Some row => (Ok (post_id, row), st)
        | None => (Raise Http404, st)
        end.

(** [Like.objects.get(user=u, post=p)]. *)
Definition Like_get (u : User.t) (p : nat) : ORM (nat * Like.t) :=
  λ st, match map_to_list (filter (for_pair u p) (likes st)) with
        | [] => (Raise DoesNotExist, st)
        | [inst] => (Ok inst, st)
        | _ => (Raise MultipleObjectsReturned, st)
        end.

(** [Like.objects.create(...)]: the database picks a primary key it has
    not issued before, so the key of a deleted row is not given again.  The
    unique constraint on [(user, post)] rejects a second row for a pair. *)
Definition Like_create (row : Like.t) : ORM (nat * Like.t) :=
  λ st,
    if decide (filter (for_pair (Like.user row) (Like.post row)) (likes st) = ∅)
    then let pk := fresh (issued st) in
         (Ok (pk, row), with_likes st (<[pk := row]> (likes st)) (INSERT pk row))
    else (Raise IntegrityError, st).

(** [Like.objects.get_or_create(user=u, post=p, defaults={'reaction': r})]:
    the row of the pair when there is one, a new row otherwise; when the
    insertion hits the unique constraint the row is looked up once more. *)
Definition Like_get_or_create (u : User.t) (p : nat) (r : string) (now : nat)
  : ORM ((nat * Like.t) * bool) :=
  λ st, match Like_get u p st with
        | (Ok inst, st') => (Ok (inst, false), st')
        | (Raise DoesNotExist, st') =>
            match Like_create (Like.mk u p r now) st' with
            | (Ok inst, st'') => (Ok (inst, true), st'')
            | (Raise IntegrityError, st'') =>
                match Like_get u p st'' with
                | (Ok inst, st3) => (Ok (inst, false), st3)
                | (Raise DoesNotExist, st3) => (Raise IntegrityError, st3)
                | (Raise e, st3) => (Raise e, st3)
                end
            | (Raise e, st'') => (Raise e, st'')
            end
        | (Raise e, st') => (Raise e, st')
        end.

(** [like.delete()]: delete the row with the instance's primary key. *)
Definition Like_delete (inst : nat * Like.t) : ORM unit :=
  λ st, (Ok (), with_likes st (delete inst.1 (likes st)) (DELETE inst.1)).

(** [like.save()] on a loaded instance, at time [now]: the row with the
    instance's primary key is updated; when that row is gone the update
    changes nothing and the instance is inserted under its key, and
    [auto_now_add] then sets [created_at] of the instance to [now].  The
    unique constraint rejects the write when another row holds the pair.
    The result is the instance as the save leaves it. *)
Definition Like_save (now : nat) (inst : nat * Like.t) : ORM (nat * Like.t) :=
  λ st,
    if decide (filter (for_pair (Like.user inst.2) (Like.post inst.2))
                 (delete inst.1 (likes st)) = ∅)
    then
      if decide (is_Some (likes st !! inst.1)) then
        (Ok inst,
         with_likes st (<[inst.1 := inst.2]> (likes st)) (UPDATE inst.1 inst.2))
      else
        let row := Like.mk (Like.user inst.2) (Like.post inst.2)
                     (Like.reaction inst.2) now in
        (Ok (inst.1, row),
         with_likes st (<[inst.1 := row]> (likes st)) (INSERT inst.1 row))
    else (Raise IntegrityError, st).

(** ** Requests and responses *)

Record Request := mkRequest {
  method : string;
  user : option User.t;          (* [None] is the anonymous user *)
  data : list (string * string); (* the parsed request body *)
  now : nat                      (* the time at which the view runs *)
}.

#[local] Set Warnings "-register-all".
Inductive JSON :=
| JNull
| JNum (n : nat)
| JStr (s : string)
| JDateTime (t : nat)
| JObj (fields : list (string * JSON)).

Record Response := mkResponse {
  body : list (string * JSON);
  status_code : nat
}.

Definition HTTP_200_OK : nat := 200.
Definition HTTP_400_BAD_REQUEST : nat := 400.
Definition HTTP_403_FORBIDDEN : nat := 403.
Definition HTTP_404_NOT_FOUND : nat := 404.
Definition HTTP_405_METHOD_NOT_ALLOWED : nat := 405.
Definition HTTP_500_INTERNAL_SERVER_ERROR : nat := 500.

(** The bodies and status codes the views and the framework answer
    with.  Of the framework's own answers the properties below read the
    status code; the text of the 404 detail differs between versions of the
    framework. *)
Definition dquote : string := String (Ascii.ascii_of_nat 34) EmptyString.

Definition INVALID_REACTION : string :=
  "Неверная реакция. Используйте " +:+ dquote +:+ "like" +:+ dquote
  +:+ " или " +:+ dquote +:+ "dislike" +:+ dquote +:+ ".".

Definition error_400 : Response :=
  mkResponse [("error", JStr INVALID_REACTION)] HTTP_400_BAD_REQUEST.

Definition removed_200 : Response :=
  mkResponse [("status", JStr "reaction removed")] HTTP_200_OK.

Definition forbidden_403 : Response :=
  mkResponse [("detail", JStr "Authentication credentials were not provided.")]
    HTTP_403_FORBIDDEN.

Definition not_found_404 : Response :=
  mkResponse [("detail", JStr "Not found.")] HTTP_404_NOT_FOUND.

(** [MethodNotAllowed(method)]: the detail names the method. *)
Definition not_allowed_405 (method : string) : Response :=
  mkResponse
    [("detail",
      JStr ("Method " +:+ dquote +:+ method +:+ dquote +:+ " not allowed."))]
    HTTP_405_METHOD_NOT_ALLOWED.

(** The answer of the framework's own [options] handler.  Its body, the
    metadata of the view (name, description, renderers and parsers), is
    left out. *)
Definition options_200 : Response :=
  mkResponse [] HTTP_200_OK.

Definition error_500 : Response :=
  mkResponse [] HTTP_500_INTERNAL_SERVER_ERROR.

(** [d.get(key, default)]. *)
Fixpoint dict_get {A} (d : list (string * A)) (key : string) (default : A) : A :=
  match d with
  | [] => default
  | (k, v) :: d' => if decide (k = key) then v else dict_get d' key default
  end.

(** [d[key]] when present. *)
Fixpoint dict_lookup {A} (d : list (string * A)) (key : string) : option A :=
  match d with
  | [] => None
  | (k, v) :: d' => if decide (k = key) then Some v else dict_lookup d' key
  end.

(** ** serializers.py *)

(** [LikeSerializer(like).data]. *)
Definition LikeSerializer (like : nat * Like.t) : list (string * JSON) :=
  [ ("id", JNum like.1);
    ("user", JStr (User.username (Like.user like.2)));
    ("post", JNum (Like.post like.2));
    ("reaction", JStr (Like.reaction like.2));
    ("created_at", JDateTime (Like.created_at like.2)) ].

(** ** views.py *)

Inductive Permission := AllowAny | IsAuthenticated.

Definition has_permission (perm : Permission) (request : Request) : bool :=
  match perm with
  | AllowAny => true
  | IsAuthenticated => bool_decide (is_Some (user request))
  end.

(** [@api_view(methods)] with [@permission_classes([perm])]: permissions are
    checked first, then the method.  The decorator allows the listed
    methods and OPTIONS, which the framework answers itself; every other
    method is answered 405.  [Http404] becomes a 404 response and any other
    exception a server error. *)
Definition api_view (methods : list string) (perm : Permission)
    (view : Request → ORM Response) (request : Request)
  : Store → Response * Store :=
  λ st,
    if negb (has_permission perm request) then
      (forbidden_403, st)
    else if negb (bool_decide (method request ∈ methods)) then
      if bool_decide (method request = "OPTIONS") then (options_200, st)
      else (not_allowed_405 (method request), st)
    else match view request st with
         | (Ok response, st') => (response, st')
         | (Raise Http404, st') => (not_found_404, st')
         | (Raise _, st') => (error_500, st')
         end.

(** [like.reaction = r] on a loaded instance. *)
Definition with_reaction (like : nat * Like.t) (r : string) : nat * Like.t :=
  (like.1, Like.mk (Like.user like.2) (Like.post like.2) r (Like.created_at like.2)).

(** The body of [toggle_like]. *)
Definition toggle_like_body (request : Request) (post_id : nat) : ORM Response :=
  do post <- get_object_or_404 post_id;
  let reaction := dict_get (data request) "reaction" Like.LIKE in
  if negb (bool_decide (reaction ∈ [Like.LIKE; Like.DISLIKE])) then
    ret error_400
  else
    match user request with
    | None => raise TypeError
    | Some u =>
        do got <- Like_get_or_create u post.1 reaction (now request);
        let '(like, created) := got in
        if negb created then
          if decide (Like.reaction like.2 = reaction) then
            (run Like_delete like;
             ret removed_200)
          else
            let like := with_reaction like reaction in
            (do like <- Like_save (now request) like;
             ret (mkResponse (LikeSerializer like) HTTP_200_OK))
        else
          ret (mkResponse (LikeSerializer like) HTTP_200_OK)
    end.

(** [toggle_like], with its decorators. *)
Definition toggle_like (request : Request) (post_id : nat)
  : Store → Response * Store :=
  api_view ["POST"] IsAuthenticated (λ rq, toggle_like_body rq post_id) request.




(** The body of [post_stats]. *)
Definition post_stats_body (request : Request) (post_id : nat) : ORM Response :=
  do post <- get_object_or_404 post_id;
  λ st,
    let stats :=
      [ ("likes_count",
          JNum (count (filter (for_post_kind post.1 Like.LIKE) (likes st))));
        ("dislikes_count",
          JNum (count (filter (for_post_kind post.1 Like.DISLIKE) (likes st))));
        ("comments_count",
          JNum (count (filter (comment_of post.1) (comments st))));
        ("total_reactions",
          JNum (count (filter (for_post post.1) (likes st)))) ] in
    (Ok (mkResponse stats HTTP_200_OK), st).

(** [post_stats], with its decorator; without a permission decorator the
    framework lets every caller in. *)
Definition post_stats (request : Request) (post_id : nat)
  : Store → Response * Store :=
  api_view ["GET"] AllowAny (λ rq, post_stats_body rq post_id) request.

(** * The statements of one run *)

(** The reaction the request asks for. *)
Definition requested (request : Request) : string :=
  dict_get (data request) "reaction" Like.LIKE.

(** The database statements of one run of [toggle_like], for a call that
    passed the permission and method checks.  A run is at one of these
    points; every step executes one statement. *)
Inductive PC :=
| AtPostLookup                 (* before [get_object_or_404] *)
| AtGet                        (* before the lookup of [get_or_create] *)
| AtInsert                     (* nothing found; before the insertion *)
| AtGetAgain                   (* the insertion hit the constraint *)
| AtWrite (like : nat * Like.t) (* a row was found; before delete or save *)
| Finished (response : Response).

(** One statement of the run of [toggle_like] for [request], whose
    authenticated user is [u]. *)
Definition step (request : Request) (u : User.t) (post_id : nat)
    (pc : PC) (st : Store) : PC * Store :=
  match pc with
  | AtPostLookup =>
      match get_object_or_404 post_id st with
      | (Ok _, st') =>
          if negb (bool_decide (requested request ∈ [Like.LIKE; Like.DISLIKE]))
          then (Finished error_400, st')
          else (AtGet, st')
      | (Raise Http404, st') => (Finished not_found_404, st')
      | (Raise _, st') => (Finished error_500, st')
      end
  | AtGet =>
      match Like_get u post_id st with
      | (Ok like, st') => (AtWrite like, st')
      | (Raise DoesNotExist, st') => (AtInsert, st')
      | (Raise _, st') => (Finished error_500, st')
      end
  | AtInsert =>
      match Like_create
              (Like.mk u post_id (requested request) (now request)) st with
      | (Ok like, st') =>
          (Finished (mkResponse (LikeSerializer like) HTTP_200_OK), st')
      | (Raise IntegrityError, st') => (AtGetAgain, st')
      | (Raise _, st') => (Finished error_500, st')
      end
  | AtGetAgain =>
      match Like_get u post_id st with
      | (Ok like, st') => (AtWrite like, st')
      | (Raise _, st') => (Finished error_500, st')
      end
  | AtWrite like =>
      if decide (Like.reaction like.2 = requested request) then
        (Finished removed_200, (Like_delete like st).2)
      else
        let like := with_reaction like (requested request) in
        match Like_save (now request) like st with
        | (Ok like, st') =>
            (Finished (mkResponse (LikeSerializer like) HTTP_200_OK), st')
        | (Raise _, st') => (Finished error_500, st')
        end
  | Finished _ => (pc, st)
  end.

(** A run that has answered. *)
Definition finished (pc : PC) : Prop :=
  match pc with Finished _ => True | _ => False end.

(** One run alone, [n] steps. *)
Definition run_alone (n : nat) (request : Request) (u : User.t)
    (post_id : nat) (pc : PC) (st : Store) : PC * Store :=
  Nat.iter n (λ c, step request u post_id c.1 c.2) (pc, st).

(** Two runs of the same user on the same post, and the database they
    share. *)
Record Race := mkRace { pcA : PC; pcB : PC; db : Store }.

(** One step of the run the scheduler picks: [true] for the first. *)
Definition race_step (rqA rqB : Request) (u : User.t) (post_id : nat)
    (c : Race) (first : bool) : Race :=
  if first then
    let r := step rqA u post_id (pcA c) (db c) in mkRace r.1 (pcB c) r.2
  else
    let r := step rqB u post_id (pcB c) (db c) in mkRace (pcA c) r.1 r.2.

(** The two runs under a schedule. *)
Definition interleave (rqA rqB : Request) (u : User.t) (post_id : nat)
    (schedule : list bool) (c : Race) : Race :=
  foldl (race_step rqA rqB u post_id) c schedule.

(** The statements left to a run, at most. *)
Definition rank (pc : PC) : nat :=
  match pc with
  | AtPostLookup => 5
  | AtGet => 4
  | AtInsert => 3
  | AtGetAgain => 2
  | AtWrite _ => 1
  | Finished _ => 0
  end.

(** The number of steps the scheduler gives to the run named [who]. *)
Definition turns (who : bool) (schedule : list bool) : nat :=
  length (filter (λ b, b = who) schedule).

(** The schedule on which both runs look the pair's row up before either
    writes: each run takes its first two steps, then each its third. *)
Definition both_read : list bool :=
  [true; true; false; false; true; false].

(** * The vocabulary of the properties *)

(** [unique_together = ['user', 'post']]: at most one row for a pair. *)
Definition unique_together (st : Store) : Prop :=
  ∀ u p, size (filter (for_pair u p) (likes st)) ≤ 1.

(** [choices=REACTION_CHOICES]: every stored reaction is a like or a
    dislike. *)
Definition reaction_choices (st : Store) : Prop :=
  ∀ pk row, likes st !! pk = Some row →
    Like.reaction row = Like.LIKE ∨ Like.reaction row = Like.DISLIKE.

(** A toggle call of an authenticated user. *)
Definition toggle_call (request : Request) (u : User.t) : Prop :=
  method request = "POST" ∧ user request = Some u.

(** The two kinds the toggle accepts. *)
Definition valid_kind (k : string) : Prop :=
  k = Like.LIKE ∨ k = Like.DISLIKE.

(** ** Counting rows, as the specification words it *)

(** The number of reactions of kind [k] stored for post [p]. *)
Definition count_reactions (st : Store) (p : nat) (k : string) : nat :=
  length (filter (λ kr : nat * Like.t,
                    Like.post kr.2 = p ∧ Like.reaction kr.2 = k)
            (map_to_list (likes st))).

(** The number of reaction rows stored for post [p]. *)
Definition count_reaction_rows (st : Store) (p : nat) : nat :=
  length (filter (λ kr : nat * Like.t, Like.post kr.2 = p)
            (map_to_list (likes st))).

(** The number of comments stored for post [p]. *)
Definition count_comments (st : Store) (p : nat) : nat :=
  length (filter (λ kr : nat * Comment.t, Comment.post kr.2 = p)
            (map_to_list (comments st))).

(** A sequence of toggle requests, each with its post identifier, run one
    after the other. *)
Definition run_toggles (calls : list (Request * nat)) (st : Store) : Store :=
  foldl (λ st call, (toggle_like call.1 call.2 st).2) st calls.

(** The dictionary [post_stats] answers with. *)
Definition stats_body (likes_count dislikes_count comments_count
    total_reactions : nat) : list (string * JSON) :=
  [ ("likes_count", JNum likes_count);
    ("dislikes_count", JNum dislikes_count);
    ("comments_count", JNum comments_count);
    ("total_reactions", JNum total_reactions) ].

(** The body the specification describes for a successful toggle: a
    [status] naming the transition and a [reaction] that is an object with
    [kind] and [created_at], or null. *)
Definition described_toggle_body (b : list (string * JSON)) : Prop :=
  (∃ s, dict_lookup b "status" = Some (JStr s)
        ∧ (s = "created" ∨ s = "changed" ∨ s = "removed"))
  ∧ (dict_lookup b "reaction" = Some JNull
     ∨ ∃ k t, dict_lookup b "reaction"
              = Some (JObj [("kind", JStr k); ("created_at", JDateTime t)])).


(** What a write statement does to the row at its key, between the table
    before and the table after. *)
Definition write_effect (w : Write) (before after : gmap nat Like.t) : Prop :=
  match w with
  | INSERT pk row => before !! pk = None ∧ after !! pk = Some row
  | UPDATE pk row => is_Some (before !! pk) ∧ after !! pk = Some row
  | DELETE pk => is_Some (before !! pk) ∧ after !! pk = None
  end.

(** The paths through [toggle_like] for a call of an authenticated user,
    each with its response and the database it leaves. *)
Inductive toggle_path (request : Request) (u : User.t) (post_id : nat)
    (st : Store) : Response → Store → Prop :=
| path_404 :
    posts st !! post_id = None →
    toggle_path request u post_id st not_found_404 st
| path_400 :
    is_Some (posts st !! post_id) →
    ¬ valid_kind (requested request) →
    toggle_path request u post_id st error_400 st
| path_created pk row :
    is_Some (posts st !! post_id) →
    valid_kind (requested request) →
    filter (for_pair u post_id) (likes st) = ∅ →
    pk = fresh (issued st) →
    row = Like.mk u post_id (requested request) (now request) →
    toggle_path request u post_id st
      (mkResponse (LikeSerializer (pk, row)) HTTP_200_OK)
      (with_likes st (<[pk := row]> (likes st)) (INSERT pk row))
| path_removed pk row :
    is_Some (posts st !! post_id) →
    valid_kind (requested request) →
    filter (for_pair u post_id) (likes st) = {[pk := row]} →
    Like.reaction row = requested request →
    toggle_path request u post_id st removed_200
      (with_likes st (delete pk (likes st)) (DELETE pk))
| path_changed pk row row' :
    is_Some (posts st !! post_id) →
    valid_kind (requested request) →
    filter (for_pair u post_id) (likes st) = {[pk := row]} →
    Like.reaction row ≠ requested request →
    row' = (with_reaction (pk, row) (requested request)).2 →
    toggle_path request u post_id st
      (mkResponse (LikeSerializer (pk, row')) HTTP_200_OK)
      (with_likes st (<[pk := row']> (likes st)) (UPDATE pk row'))
| path_500 :
    is_Some (posts st !! post_id) →
    valid_kind (requested request) →
    1 < size (filter (for_pair u post_id) (likes st)) →
    toggle_path request u post_id st error_500 st.

(** A run that has not reached the table's rows of the pair, or found
    none. *)
Definition idle (pc : PC) : Prop :=
  pc = AtPostLookup ∨ pc = AtGet ∨ pc = AtInsert.

(** A run that has not written yet while the row [like] of the other run
    is stored. *)
Definition waiting (pc : PC) (like : nat * Like.t) : Prop :=
  idle pc ∨ pc = AtGetAgain ∨ pc = AtWrite like.

(** A run that ended by inserting [like]. *)
Definition created (pc : PC) (like : nat * Like.t) : Prop :=
  pc = Finished (mkResponse (LikeSerializer like) HTTP_200_OK).

(** The joint states two toggles of one pair with the same kind [k] reach
    from a table with no row for the pair; the first run is the one that
    inserts. *)
Inductive race_inv (u : User.t) (post_id : nat) (k : string)
  : PC → PC → Store → Prop :=
| inv_idle a b st :
    idle a → idle b →
    filter (for_pair u post_id) (likes st) = ∅ →
    race_inv u post_id k a b st
| inv_created a b st like :
    created a like → waiting b like →
    filter (for_pair u post_id) (likes st) = {[like.1 := like.2]} →
    Like.reaction like.2 = k →
    race_inv u post_id k a b st
| inv_removed a b st like :
    created a like → b = Finished removed_200 →
    filter (for_pair u post_id) (likes st) = ∅ →
    race_inv u post_id k a b st.

(** The invariant of the two runs, whichever of them inserts, with the
    post still there. *)
Definition race_either (u : User.t) (post_id : nat) (k : string)
    (a b : PC) (st : Store) : Prop :=
  is_Some (posts st !! post_id)
  ∧ (race_inv u post_id k a b st ∨ race_inv u post_id k b a st).

(** The columns of the unique constraint. *)
Definition pair_key (kr : nat * Like.t) : nat * nat :=
  (User.pk (Like.user kr.2), Like.post kr.2).

(** A test of [unique_together] that computes. *)
Definition unique_together_check (st : Store) : bool :=
  bool_decide (NoDup (pair_key <$> map_to_list (likes st))).

(** A test of [reaction_choices] that computes. *)
Definition reaction_choices_check (st : Store) : bool :=
  forallb (λ kr : nat * Like.t,
             bool_decide (Like.reaction kr.2 ∈ [Like.LIKE; Like.DISLIKE]))
    (map_to_list (likes st)).

(** * Worked examples *)

Module Example.
Definition user1 : User.t := User.mk 1 "user1".
Definition user2 : User.t := User.mk 2 "user2".
Definition user3 : User.t := User.mk 3 "user3".

Definition the_post : Post.t :=
  Post.mk user1 "post" "Moscow" 0 (Some 55.75%float) (Some 37.5%float).

(** One post, number 7, and nothing else. *)
Definition fresh_post : Store := mkStore {[7 := the_post]} ∅ ∅ [].

(** The post with a like of [user1]. *)
Definition liked : Store :=
  mkStore {[7 := the_post]} {[0 := Like.mk user1 7 "like" 5]} ∅ [].

(** The post with two likes, one dislike and two comments. *)
Definition busy : Store :=
  mkStore {[7 := the_post]}
    (<[0 := Like.mk user1 7 "like" 1]>
       (<[1 := Like.mk user2 7 "like" 2]>
          {[2 := Like.mk user3 7 "dislike" 3]}))
    (<[0 := Comment.mk user1 7 "first" 4]>
       {[1 := Comment.mk user2 7 "second" 5]})
    [].

Definition toggle_request (u : User.t) (kind : string) (t : nat) : Request :=
  mkRequest "POST" (Some u) [("reaction", kind)] t.

Definition bare_request (u : User.t) (t : nat) : Request :=
  mkRequest "POST" (Some u) [] t.

Definition stats_request : Request := mkRequest "GET" None [] 9.

(** Seven requests: likes and dislikes of two users, an invalid kind, a
  request without the field, and a request for a post that is not there. *)
Definition calls : list (Request * nat) :=
  [ (toggle_request user1 "like" 1, 7);
    (toggle_request user2 "dislike" 2, 7);
    (toggle_request user1 "dislike" 3, 7);
    (toggle_request user1 "angry" 4, 7);
    (bare_request user3 5, 7);
    (toggle_request user2 "dislike" 6, 7);
    (toggle_request user2 "like" 7, 8) ].

(** The two runs one after the other, and the two runs meeting at the
    insertion. *)
Definition serial : list bool :=
  [true; true; true; true; true; false; false; false; false; false].
Definition contended : list bool :=
  [true; false; true; false; true; false; false; false].

Definition race (schedule : list bool) : Race :=
  interleave (toggle_request user1 "like" 5) (toggle_request user1 "like" 6)
    user1 7 schedule (mkRace AtPostLookup AtPostLookup fresh_post).

(** The same two runs when the like of [user1] is already stored. *)
Definition race_liked (schedule : list bool) : Race :=
  interleave (toggle_request user1 "like" 5) (toggle_request user1 "like" 6)
    user1 7 schedule (mkRace AtPostLookup AtPostLookup liked).

(** The two calls one after the other from [st], in this order. *)
Definition in_turn (first second : Request) (st : Store) : Store :=
  (toggle_like second 7 (toggle_like first 7 st).2).2.
End Example.

(** * More of serializers.py: the computed fields of [PostSerializer] *)

(** [get_likes_count(obj)]. *)
Definition get_likes_count (obj : nat * Post.t) (st : Store) : nat :=
  count (filter (for_post_kind obj.1 Like.LIKE) (likes st)).

(** [get_dislikes_count(obj)]. *)
Definition get_dislikes_count (obj : nat * Post.t) (st : Store) : nat :=
  count (filter (for_post_kind obj.1 Like.DISLIKE) (likes st)).

(** [get_user_reaction(obj)]; [context] is the entry [request] of the
    serializer's context, when there is one.  Only [Like.DoesNotExist] is
    caught. *)
Definition get_user_reaction (context : option Request) (obj : nat * Post.t)
  : ORM (option string) :=
  match context with
  | Some request =>
      match user request with
      | Some u =>
          λ st, match Like_get u obj.1 st with
                | (Ok like, st') => (Ok (Some (Like.reaction like.2)), st')
                | (Raise DoesNotExist, st') => (Ok None, st')
                | (Raise e, st') => (Raise e, st')
                end
      | None => ret None
      end
  | None => ret None
  end.

(** The reaction a pair is left with when it had [prev] and toggles [k]. *)
Definition toggled (prev : option string) (k : string) : option string :=
  if decide (prev = Some k) then None else Some k.

(** One for a pair whose reaction is [k], zero otherwise. *)
Definition counts_as (reaction : option string) (k : string) : nat :=
  if decide (reaction = Some k) then 1 else 0.

(** One when the row satisfies [P], zero otherwise. *)
Definition holds (P : nat * Like.t → Prop) `{!∀ x, Decision (P x)}
    (x : nat * Like.t) : nat :=
  if decide (P x) then 1 else 0.

(** The pair of [u] and [p] has the reaction [r] stored, or none. *)
Definition pair_state (st : Store) (u : User.t) (p : nat)
    (r : option string) : Prop :=
  match r with
  | None => filter (for_pair u p) (likes st) = ∅
  | Some k => ∃ pk row, filter (for_pair u p) (likes st) = {[pk := row]}
                        ∧ Like.reaction row = k
  end.

(** * Any number of toggles at once *)

(** One run of [toggle_like]: its request, its authenticated user, its
    post identifier and the point it is at. *)
Record Run := mkRun {
  run_request : Request;
  run_user : User.t;
  run_post : nat;
  run_pc : PC
}.

(** One statement of the run the scheduler names; a name that is no run
    does nothing. *)
Definition pool_step (c : list Run * Store) (i : nat) : list Run * Store :=
  match c.1 !! i with
  | Some r =>
      let s := step (run_request r) (run_user r) (run_post r) (run_pc r) c.2 in
      (<[i := mkRun (run_request r) (run_user r) (run_post r) s.1]> c.1, s.2)
  | None => c
  end.

Definition pool_run (schedule : list nat) (c : list Run * Store)
  : list Run * Store :=
  foldl pool_step c schedule.

(** The joint states of two toggles of one pair with different kinds, from
    a table with no row for the pair: the first run, whose kind is [ka] and
    whose time is [na], is the one that inserts, and the second, whose kind
    is [kb], rewrites the kind of the row it finds. *)
Inductive duel_inv (u : User.t) (post_id : nat) (ka : string) (na : nat)
    (kb : string) : PC → PC → Store → Prop :=
| duel_idle a b st :
    idle a → idle b →
    filter (for_pair u post_id) (likes st) = ∅ →
    duel_inv u post_id ka na kb a b st
| duel_created a b st like :
    created a like → waiting b like →
    filter (for_pair u post_id) (likes st) = {[like.1 := like.2]} →
    like.2 = Like.mk u post_id ka na →
    duel_inv u post_id ka na kb a b st
| duel_changed a b st pk :
    created a (pk, Like.mk u post_id ka na) →
    b = Finished (mkResponse (LikeSerializer (pk, Like.mk u post_id kb na))
                    HTTP_200_OK) →
    filter (for_pair u post_id) (likes st) = {[pk := Like.mk u post_id kb na]} →
    duel_inv u post_id ka na kb a b st.

(** The invariant of the two runs, whichever of them inserts, with the
    post still there. *)
Definition duel_either (u : User.t) (post_id : nat) (ka : string) (na : nat)
    (kb : string) (nb : nat) (a b : PC) (st : Store) : Prop :=
  is_Some (posts st !! post_id)
  ∧ (duel_inv u post_id ka na kb a b st ∨ duel_inv u post_id kb nb ka b a st).

(** * More of views.py: the class-based views *)

(** The views below answer with a status code; their bodies, which
    serialize images, coordinates and user profiles, are left out. *)
Definition HTTP_201_CREATED : nat := 201.
Definition HTTP_204_NO_CONTENT : nat := 204.

(** What a handler of a class-based view fails with: an exception of the
    database layer, or one of the framework's two. *)
Inductive APIException :=
| FromORM (e : Exn)
| PermissionDenied (detail : string)
| ValidationError.

Inductive Result (A : Type) :=
| Done (a : A)
| Failed (e : APIException).
Arguments Done {A} a.
Arguments Failed {A} e.

Definition Handler (A : Type) : Type := Store → Result A * Store.

Definition lift {A} (m : ORM A) : Handler A :=
  λ st, match m st with
        | (Ok a, st') => (Done a, st')
        | (Raise e, st') => (Failed (FromORM e), st')
        end.

Definition and_then {A B} (h : Handler A) (k : A → Handler B) : Handler B :=
  λ st, match h st with
        | (Done a, st') => k a st'
        | (Failed e, st') => (Failed e, st')
        end.

(** The status code the framework's exception handler answers with. *)
Definition status_of (e : APIException) : nat :=
  match e with
  | FromORM Http404 => HTTP_404_NOT_FOUND
  | FromORM _ => HTTP_500_INTERNAL_SERVER_ERROR
  | PermissionDenied _ => HTTP_403_FORBIDDEN
  | ValidationError => HTTP_400_BAD_REQUEST
  end.

(** The dispatch of a class-based view: permissions first, then the
    handler of the method, when the view has one. *)
Definition dispatch (permitted : bool) (handler : option (Handler nat))
  : Store → nat * Store :=
  λ st,
    if negb permitted then (HTTP_403_FORBIDDEN, st)
    else match handler with
         | None => (HTTP_405_METHOD_NOT_ALLOWED, st)
         | Some h =>
             match h st with
             | (Done code, st') => (code, st')
             | (Failed e, st') => (status_of e, st')
             end
         end.

(** [permissions.IsAuthenticatedOrReadOnly]. *)
Definition SAFE_METHODS : list string := ["GET"; "HEAD"; "OPTIONS"].

Definition IsAuthenticatedOrReadOnly (request : Request) : bool :=
  bool_decide (method request ∈ SAFE_METHODS)
  || bool_decide (is_Some (user request)).

(** ** PostDetailView *)

(** [instance.author != self.request.user], negated: model instances are
    equal when their primary keys are, and the anonymous user equals no
    one. *)
Definition is_author (instance : nat * Post.t) (request : Request) : bool :=
  match user request with
  | Some u => bool_decide (User.pk (Post.author instance.2) = User.pk u)
  | None => false
  end.

(** [instance.delete()] on a post.  The reactions and the comments that
    reference the post are declared [on_delete=models.CASCADE] and go with
    it; the journal records the reactions deleted. *)
Definition Post_delete (instance : nat * Post.t) : ORM unit :=
  λ st,
    (Ok (),
     mkStore (delete instance.1 (posts st))
       (filter (λ kr, ¬ for_post instance.1 kr) (likes st))
       (filter (λ kr, ¬ comment_of instance.1 kr) (comments st))
       (queries st
        ++ (DELETE <$> (map_to_list (filter (for_post instance.1) (likes st))).*1))).

(** [instance.save()] on a loaded post. *)
Definition Post_save (instance : nat * Post.t) : ORM unit :=
  λ st,
    (Ok (),
     mkStore (<[instance.1 := instance.2]> (posts st))
       (likes st) (comments st) (queries st)).

(** The validated data of [PostSerializer]: the fields that are not
    read-only, [text], [location_name], [latitude] and [longitude], each
    present or not.  A coordinate that is present is a number or null. *)
Record PostData := mkPostData {
  data_text : option string;
  data_location_name : option string;
  data_latitude : option (option float);
  data_longitude : option (option float)
}.

(** [serializer.update(instance, validated_data)] before the save: every
    field present is assigned. *)
Definition assign (instance : nat * Post.t) (validated : PostData)
  : nat * Post.t :=
  (instance.1,
   Post.mk (Post.author instance.2)
     (default (Post.text instance.2) (data_text validated))
     (default (Post.location_name instance.2) (data_location_name validated))
     (Post.created_at instance.2)
     (default (Post.latitude instance.2) (data_latitude validated))
     (default (Post.longitude instance.2) (data_longitude validated))).

(** [self.get_object()]. *)
Definition get_object (pk : nat) : Handler (nat * Post.t) :=
  lift (get_object_or_404 pk).

(** [perform_update(serializer)]. *)
Definition perform_update (request : Request) (pk : nat)
    (validated : PostData) : Handler unit :=
  and_then (get_object pk) (λ instance,
    if negb (is_author instance request) then
      λ st, (Failed (PermissionDenied
                       "Вы можете редактировать только свои публикации"), st)
    else lift (Post_save (assign instance validated))).

(** [perform_destroy(instance)]. *)
Definition perform_destroy (request : Request) (instance : nat * Post.t)
  : Handler unit :=
  if negb (is_author instance request) then
    λ st, (Failed (PermissionDenied
                     "Вы можете удалять только свои публикации"), st)
  else lift (Post_delete instance).

(** The framework's [retrieve]: the post is looked up and serialized; of
    the serializer's fields only [get_user_reaction] can fail. *)
Definition retrieve (request : Request) (pk : nat) : Handler nat :=
  and_then (get_object pk) (λ instance,
  and_then (lift (get_user_reaction (Some request) instance)) (λ _,
  λ st, (Done HTTP_200_OK, st))).

(** The framework's [update]: look up, validate, [perform_update].
    [is_valid] is the validation of [PostSerializer], given whether the
    update is partial and the request body. *)
Definition update (is_valid : bool → list (string * string) → option PostData)
    (partial : bool) (request : Request) (pk : nat) : Handler nat :=
  and_then (get_object pk) (λ instance,
    match is_valid partial (data request) with
    | None => λ st, (Failed ValidationError, st)
    | Some validated =>
        and_then (perform_update request pk validated) (λ _,
        λ st, (Done HTTP_200_OK, st))
    end).

(** The framework's [destroy]: look up, [perform_destroy]. *)
Definition destroy (request : Request) (pk : nat) : Handler nat :=
  and_then (get_object pk) (λ instance,
  and_then (perform_destroy request instance) (λ _,
  λ st, (Done HTTP_204_NO_CONTENT, st))).

(** [PostDetailView], a [RetrieveUpdateDestroyAPIView]. *)
Definition PostDetailView
    (is_valid : bool → list (string * string) → option PostData)
    (request : Request) (pk : nat) : Store → nat * Store :=
  dispatch (IsAuthenticatedOrReadOnly request)
    (if decide (method request = "GET") then Some (retrieve request pk)
     else if decide (method request = "HEAD") then Some (retrieve request pk)
     else if decide (method request = "PUT") then
       Some (update is_valid false request pk)
     else if decide (method request = "PATCH") then
       Some (update is_valid true request pk)
     else if decide (method request = "DELETE") then Some (destroy request pk)
     else if decide (method request = "OPTIONS") then
       Some (λ st, (Done HTTP_200_OK, st))
     else None).

(** ** CommentCreateView *)

(** [Comment.objects.create(...)]: the database picks an unused primary
    key. *)
Definition Comment_create (row : Comment.t) : ORM (nat * Comment.t) :=
  λ st,
    let pk := fresh (dom (comments st)) in
    (Ok (pk, row),
     mkStore (posts st) (likes st) (<[pk := row]> (comments st)) (queries st)).

(** [perform_create(serializer)], with [text] the validated data of
    [CommentSerializer], whose other fields are read-only. *)
Definition perform_create (request : Request) (post_id : nat)
    (text : string) : Handler unit :=
  and_then (lift (get_object_or_404 post_id)) (λ post,
    match user request with
    | None => λ st, (Failed (FromORM TypeError), st)
    | Some u =>
        and_then
          (lift (Comment_create (Comment.mk u post.1 text (now request))))
          (λ _, λ st, (Done (), st))
    end).

(** The framework's [create]: validate, [perform_create].  [is_valid] is
    the validation of [CommentSerializer] on the request body. *)
Definition create (is_valid : list (string * string) → option string)
    (request : Request) (post_id : nat) : Handler nat :=
  match is_valid (data request) with
  | None => λ st, (Failed ValidationError, st)
  | Some text =>
      and_then (perform_create request post_id text) (λ _,
      λ st, (Done HTTP_201_CREATED, st))
  end.

(** [CommentCreateView], a [CreateAPIView]. *)
Definition CommentCreateView
    (is_valid : list (string * string) → option string)
    (request : Request) (post_id : nat) : Store → nat * Store :=
  dispatch (has_permission IsAuthenticated request)
    (if decide (method request = "POST") then
       Some (create is_valid request post_id)
     else if decide (method request = "OPTIONS") then
       Some (λ st, (Done HTTP_200_OK, st))
     else None).

(** * More worked examples *)

Module Scenario.
Definition first_post : Post.t :=
  Post.mk Example.user1 "first" "Sochi" 0 (Some 43.5%float) (Some 39.75%float).

Definition second_post : Post.t :=
  Post.mk Example.user2 "second" "Moscow" 1 None None.

(** Two posts, number 7 of [user1] and number 8 of [user2], each with
    reactions and comments. *)
Definition two_posts : Store :=
  mkStore
    (<[7 := first_post]> {[8 := second_post]})
    (<[0 := Like.mk Example.user1 7 "like" 2]>
       (<[1 := Like.mk Example.user2 7 "dislike" 3]>
          {[2 := Like.mk Example.user1 8 "like" 4]}))
    (<[0 := Comment.mk Example.user2 7 "nice" 5]>
       {[1 := Comment.mk Example.user1 8 "thanks" 6]})
    [].

(** A validation of comments that wants a text that is not empty. *)
Definition comment_valid (d : list (string * string)) : option string :=
  match dict_lookup d "text" with
  | Some t => if decide (t = EmptyString) then None else Some t
  | None => None
  end.

(** The coordinates the requests below spell out; the word [null] is
    NULL. *)
Definition to_coordinate (s : string) : option (option float) :=
  if decide (s = "null") then Some None
  else if decide (s = "55.75") then Some (Some 55.75%float)
  else if decide (s = "37.5") then Some (Some 37.5%float)
  else None.

(** A coordinate of the body: absent, or present and spelled as above. *)
Definition coordinate (d : list (string * string)) (key : string)
  : option (option (option float)) :=
  match dict_lookup d key with
  | None => Some None
  | Some s => Some <$> to_coordinate s
  end.

(** A validation of posts that accepts every body whose coordinates, when
    it carries any, are spelled as above. *)
Definition post_valid (partial : bool) (d : list (string * string))
  : option PostData :=
  latitude ← coordinate d "latitude";
  longitude ← coordinate d "longitude";
  Some (mkPostData (dict_lookup d "text") (dict_lookup d "location_name")
          latitude longitude).

Definition delete_request (u : User.t) : Request :=
  mkRequest "DELETE" (Some u) [] 9.

Definition options_request (u : User.t) : Request :=
  mkRequest "OPTIONS" (Some u) [] 9.

Definition put_request (u : User.t) (text : string) : Request :=
  mkRequest "PUT" (Some u) [("text", text)] 9.

(** A PATCH that moves the post to Moscow. *)
Definition move_request (u : User.t) : Request :=
  mkRequest "PATCH" (Some u)
    [("location_name", "Moscow"); ("latitude", "55.75"); ("longitude", "37.5")]
    9.

Definition comment_request (u : User.t) (text : string) : Request :=
  mkRequest "POST" (Some u) [("text", text)] 9.

Definition anonymous_request (m : string) : Request :=
  mkRequest m None [("text", "hello"); ("reaction", "like")] 9.

(** Three runs at once: two users on post 7 and one run for a post that is
    not there. *)
Definition runs : list Run :=
  [ mkRun (Example.toggle_request Example.user1 "dislike" 10)
      Example.user1 7 AtPostLookup;
    mkRun (Example.toggle_request Example.user2 "dislike" 11)
      Example.user2 7 AtPostLookup;
    mkRun (Example.toggle_request Example.user1 "like" 12)
      Example.user1 9 AtPostLookup ].

Definition schedule : list nat :=
  [0; 1; 0; 2; 1; 0; 1; 2; 0; 1; 5; 1; 0; 2].

(** A like and a dislike of one user at once. *)
Definition duel (schedule : list bool) : Race :=
  interleave (Example.toggle_request Example.user1 "like" 5)
    (Example.toggle_request Example.user1 "dislike" 6)
    Example.user1 7 schedule
    (mkRace AtPostLookup AtPostLookup Example.fresh_post).
End Scenario.

(** * Lemmas on tables *)

Section tables.
Context {A : Type}.
Implicit Types m : gmap nat A.

Lemma to_list_single m inst : map_to_list m = [inst] → m = {[inst.1 := inst.2]}.
Proof.
  intros H. rewrite <- (list_to_map_to_list m), H. destruct inst. simpl.
  by rewrite insert_empty.
Qed.

Lemma size_filter_list (P : nat * A → Prop) `{!∀ x, Decision (P x)} m :
  size (filter P m) = length (filter P (map_to_list m)).
Proof.
  induction m as [|k x m Hk IH] using map_ind.
  - by rewrite map_filter_empty, map_to_list_empty, map_size_empty.
  - rewrite map_filter_insert.
    rewrite (Permutation_length (filter_Permutation P _ _
               (map_to_list_insert m k x Hk))).
    rewrite filter_cons. case_decide.
    + rewrite map_size_insert_None; [simpl; by rewrite IH|].
      rewrite map_lookup_filter_None. by left.
    + rewrite delete_id by done. done.
Qed.
End tables.

(** * What one call of [toggle_like] does *)

Lemma valid_kind_elem k :
  k ∈ [Like.LIKE; Like.DISLIKE] ↔ valid_kind k.
Proof.
  unfold valid_kind. rewrite !elem_of_cons, elem_of_nil. tauto.
Qed.

Lemma Like_get_empty u p st :
  filter (for_pair u p) (likes st) = ∅ →
  Like_get u p st = (Raise DoesNotExist, st).
Proof. intros H. unfold Like_get. by rewrite H, map_to_list_empty. Qed.

Lemma Like_get_single u p st pk row :
  filter (for_pair u p) (likes st) = {[pk := row]} →
  Like_get u p st = (Ok (pk, row), st).
Proof. intros H. unfold Like_get. by rewrite H, map_to_list_singleton. Qed.

Lemma Like_get_many u p st :
  1 < size (filter (for_pair u p) (likes st)) →
  Like_get u p st = (Raise MultipleObjectsReturned, st).
Proof.
  intros H. unfold Like_get. rewrite <- length_map_to_list in H.
  destruct (map_to_list _) as [|? [|? ?]]; simpl in H; try lia. done.
Qed.

(** The rows of a pair are none, one, or several. *)
Lemma pair_rows u p (m : gmap nat Like.t) :
  filter (for_pair u p) m = ∅
  ∨ (∃ pk row, filter (for_pair u p) m = {[pk := row]})
  ∨ 1 < size (filter (for_pair u p) m).
Proof.
  destruct (map_to_list (filter (for_pair u p) m)) as [|[pk row] [|? ?]] eqn:E.
  - left. by apply map_to_list_empty_iff.
  - right; left. exists pk, row. by apply to_list_single in E.
  - right; right. rewrite <- length_map_to_list, E. simpl. lia.
Qed.

Lemma filter_single_lookup u p (m : gmap nat Like.t) pk row :
  filter (for_pair u p) m = {[pk := row]} →
  m !! pk = Some row ∧ for_pair u p (pk, row).
Proof.
  intros H.
  assert (filter (for_pair u p) m !! pk = Some row) as Hl
    by (rewrite H; apply lookup_singleton_eq).
  apply map_lookup_filter_Some in Hl. tauto.
Qed.

Lemma for_pair_same_key u p u' p' (m : gmap nat Like.t) :
  User.pk u = User.pk u' → p = p' →
  filter (for_pair u' p') m = filter (for_pair u p) m.
Proof.
  intros Hu ->. apply map_filter_ext. intros pk row _.
  unfold for_pair. simpl. rewrite Hu. done.
Qed.

(** Saving the loaded row of a pair with another kind is an update. *)
Lemma Like_save_loaded u p st pk row r now :
  filter (for_pair u p) (likes st) = {[pk := row]} →
  Like_save now (with_reaction (pk, row) r) st
  = (Ok (with_reaction (pk, row) r),
     with_likes st (<[pk := (with_reaction (pk, row) r).2]> (likes st))
       (UPDATE pk (with_reaction (pk, row) r).2)).
Proof.
  intros Hs. destruct (filter_single_lookup _ _ _ _ _ Hs) as [Hl [Hu Hp]].
  unfold Like_save. simpl in *.
  rewrite (for_pair_same_key u p (Like.user row) (Like.post row)) by done.
  rewrite map_filter_delete, Hs, delete_singleton_eq.
  rewrite decide_True by done.
  rewrite decide_True by (rewrite Hl; by eexists). done.
Qed.

Lemma toggle_like_path request u post_id st :
  toggle_call request u →
  toggle_path request u post_id st
    (toggle_like request post_id st).1 (toggle_like request post_id st).2.
Proof.
  intros [Hm Hu].
  unfold toggle_like, api_view, has_permission. rewrite Hu, Hm. simpl.
  unfold toggle_like_body, bind, get_object_or_404.
  destruct (posts st !! post_id) as [prow|] eqn:Hp; simpl.
  2:{ by apply path_404. }
  fold (requested request). rewrite Hu.
  destruct (decide (valid_kind (requested request))) as [Hk|Hk].
  2:{ rewrite bool_decide_false by (by rewrite valid_kind_elem). simpl.
      apply path_400; [by rewrite Hp|done]. }
  rewrite bool_decide_true by (by rewrite valid_kind_elem). simpl.
  assert (is_Some (posts st !! post_id)) as Hp' by (by rewrite Hp).
  unfold Like_get_or_create.
  destruct (pair_rows u post_id (likes st)) as [He|[(pk & row & Hs)|Hmany]].
  - rewrite (Like_get_empty _ _ _ He). unfold Like_create. simpl.
    rewrite decide_True by done. simpl.
    by apply path_created.
  - rewrite (Like_get_single _ _ _ _ _ Hs). simpl.
    destruct (decide (Like.reaction row = requested request)) as [Heq|Hne]; simpl.
    + by eapply path_removed.
    + rewrite (Like_save_loaded _ _ _ _ _ _ _ Hs). simpl.
      by eapply path_changed.
  - rewrite (Like_get_many _ _ _ Hmany). simpl. by apply path_500.
Qed.

Lemma filter_single_unique u p (m : gmap nat Like.t) pk row pk' row' :
  filter (for_pair u p) m = {[pk' := row']} →
  m !! pk = Some row → for_pair u p (pk, row) →
  pk' = pk ∧ row' = row.
Proof.
  intros Hs Hl Hp.
  assert (filter (for_pair u p) m !! pk = Some row) as Hf
    by (apply map_lookup_filter_Some; done).
  rewrite Hs in Hf. apply lookup_singleton_Some in Hf. done.
Qed.

Lemma filter_empty_none u p (m : gmap nat Like.t) pk row :
  filter (for_pair u p) m = ∅ →
  m !! pk = Some row → ¬ for_pair u p (pk, row).
Proof.
  intros He Hl Hp.
  assert (filter (for_pair u p) m !! pk = Some row) as Hf
    by (apply map_lookup_filter_Some; done).
  by rewrite He, lookup_empty in Hf.
Qed.

Lemma fresh_pk st : likes st !! fresh (issued st) = None.
Proof.
  apply not_elem_of_dom. intros Hin. apply (is_fresh (issued st)).
  by apply elem_of_union_l.
Qed.

(** * The toggle state machine *)

(** C1.  A toggle call of an authenticated user on an existing post with
    a requested kind that is a like or a dislike follows three branches on
    the reaction the pair has stored: with no row for the pair, a row with
    the requested kind is inserted under an unused key; with a row of the
    requested kind, that row is deleted; with a row of the other kind, that
    row's kind becomes the requested one and nothing else of it changes. *)
Theorem toggle_three_branches (request : Request) (u : User.t)
    (post_id : nat) (st : Store) :
  toggle_call request u →
  is_Some (posts st !! post_id) →
  valid_kind (requested request) →
  unique_together st →
  let st' := (toggle_like request post_id st).2 in
  ((∀ pk row, likes st !! pk = Some row → ¬ for_pair u post_id (pk, row)) →
     ∃ pk, likes st !! pk = None ∧
       likes st' =
         <[pk := Like.mk u post_id (requested request) (now request)]> (likes st))
  ∧ (∀ pk row, likes st !! pk = Some row → for_pair u post_id (pk, row) →
       Like.reaction row = requested request →
       likes st' = delete pk (likes st))
  ∧ (∀ pk row, likes st !! pk = Some row → for_pair u post_id (pk, row) →
       Like.reaction row ≠ requested request →
       likes st' =
         <[pk := Like.mk (Like.user row) (Like.post row) (requested request)
                   (Like.created_at row)]> (likes st)).
Proof.
  intros Hcall Hpost Hkind Huniq st'. subst st'.
  pose proof (toggle_like_path request u post_id st Hcall) as Hpath.
  destruct Hpath as [Hnone|? Hbad|pk0 row0 _ _ He -> ->
                    |pk0 row0 _ _ Hs Heq|pk0 row0 row1 _ _ Hs Hne ->|_ _ Hmany].
  - rewrite Hnone in Hpost. by destruct Hpost.
  - done.
  - split; [|split].
    + intros _. exists (fresh (issued st)). split; [apply fresh_pk|done].
    + intros pk row Hl Hp _. by destruct (filter_empty_none _ _ _ _ _ He Hl).
    + intros pk row Hl Hp _. by destruct (filter_empty_none _ _ _ _ _ He Hl).
  - destruct (filter_single_lookup _ _ _ _ _ Hs) as [Hl0 Hp0].
    split; [|split].
    + intros Hno. by destruct (Hno _ _ Hl0).
    + intros pk row Hl Hp _.
      destruct (filter_single_unique _ _ _ _ _ _ _ Hs Hl Hp) as [-> ->]. done.
    + intros pk row Hl Hp Hne.
      destruct (filter_single_unique _ _ _ _ _ _ _ Hs Hl Hp) as [-> ->]. done.
  - destruct (filter_single_lookup _ _ _ _ _ Hs) as [Hl0 Hp0].
    split; [|split].
    + intros Hno. by destruct (Hno _ _ Hl0).
    + intros pk row Hl Hp Heq.
      destruct (filter_single_unique _ _ _ _ _ _ _ Hs Hl Hp) as [-> ->]. done.
    + intros pk row Hl Hp _.
      destruct (filter_single_unique _ _ _ _ _ _ _ Hs Hl Hp) as [-> ->]. done.
  - specialize (Huniq u post_id). lia.
Qed.

(** * The uniqueness invariant *)

Lemma size_filter_delete (P : nat * Like.t → Prop) `{!∀ x, Decision (P x)}
    (m : gmap nat Like.t) pk :
  size (filter P (delete pk m)) ≤ size (filter P m).
Proof.
  rewrite map_filter_delete, map_size_delete.
  destruct (filter P m !! pk); simpl; lia.
Qed.

Lemma size_filter_update (P : nat * Like.t → Prop) `{!∀ x, Decision (P x)}
    (m : gmap nat Like.t) pk row row' :
  m !! pk = Some row → (P (pk, row) ↔ P (pk, row')) →
  size (filter P (<[pk := row']> m)) = size (filter P m).
Proof.
  intros Hl Hiff. rewrite map_filter_insert. case_decide as HP.
  - apply map_size_insert_Some. exists row.
    apply map_lookup_filter_Some. tauto.
  - rewrite map_filter_delete, map_size_delete_None; [done|].
    apply map_lookup_filter_None. right. intros row0 Hl0.
    rewrite Hl in Hl0. injection Hl0 as <-. tauto.
Qed.

(** A request that is not a toggle call of an authenticated user leaves
    the database as it is. *)
Lemma toggle_like_rejected request post_id st :
  (∃ u, toggle_call request u) ∨ (toggle_like request post_id st).2 = st.
Proof.
  unfold toggle_like, api_view, has_permission, toggle_call.
  destruct (user request) as [u|]; simpl; [|by right].
  destruct (decide (method request = "POST")) as [Hm|Hm].
  - left. by exists u.
  - right. rewrite bool_decide_false; [simpl; by case_bool_decide|].
    rewrite elem_of_cons, elem_of_nil. tauto.
Qed.

Lemma toggle_like_unique request post_id st :
  unique_together st → unique_together (toggle_like request post_id st).2.
Proof.
  intros Huniq.
  destruct (toggle_like_rejected request post_id st) as [[u Hcall]| ->]; [|done].
  pose proof (toggle_like_path request u post_id st Hcall) as Hpath.
  destruct Hpath as [?|? ?|pk row _ _ He Hpk Hrow
                    |pk row _ _ Hs _|pk row row' _ _ Hs _ Hrow'|? ? ?];
    try done; intros u' p'; simpl.
  - rewrite map_filter_insert. case_decide as HP.
    + unfold for_pair in HP. rewrite Hrow in HP. simpl in HP. destruct HP as [Hu Hp].
      rewrite (for_pair_same_key u post_id u' p') by done.
      rewrite He, insert_empty, map_size_singleton. done.
    + rewrite delete_id by (rewrite Hpk; apply fresh_pk). apply Huniq.
  - etrans; [apply size_filter_delete|apply Huniq].
  - destruct (filter_single_lookup _ _ _ _ _ Hs) as [Hl _].
    rewrite (size_filter_update _ _ _ row) ; [apply Huniq|done|].
    rewrite Hrow'. done.
Qed.

(** C2.  From a database with at most one reaction row for every pair of
    user and post, any finite sequence of toggle requests, with any users,
    posts and kinds, leaves at most one row for every pair; so does every
    single toggle request. *)
Theorem toggles_keep_at_most_one (calls : list (Request * nat)) (st : Store) :
  unique_together st →
  (∀ u p, size (filter (for_pair u p) (likes (run_toggles calls st))) ≤ 1)
  ∧ (∀ request post_id u p,
       size (filter (for_pair u p)
               (likes (toggle_like request post_id st).2)) ≤ 1).
Proof.
  intros Huniq. split.
  - revert st Huniq.
    induction calls as [|[request post_id] calls IH]; intros st Huniq.
    + exact Huniq.
    + simpl. apply IH. by apply toggle_like_unique.
  - intros request post_id. by apply toggle_like_unique.
Qed.

(** * Statistics *)

Lemma post_stats_found request post_id st :
  method request = "GET" → is_Some (posts st !! post_id) →
  post_stats request post_id st =
    (mkResponse
       (stats_body (count_reactions st post_id Like.LIKE)
          (count_reactions st post_id Like.DISLIKE)
          (count_comments st post_id)
          (count_reaction_rows st post_id))
       HTTP_200_OK, st).
Proof.
  intros Hm [prow Hp].
  unfold post_stats, api_view, has_permission. rewrite Hm. simpl.
  unfold post_stats_body, bind, get_object_or_404. rewrite Hp. simpl.
  unfold count, stats_body, count_reactions, count_comments, count_reaction_rows.
  rewrite !size_filter_list. done.
Qed.

Lemma post_stats_missing request post_id st :
  method request = "GET" → posts st !! post_id = None →
  post_stats request post_id st =
    (not_found_404, st).
Proof.
  intros Hm Hp.
  unfold post_stats, api_view, has_permission. rewrite Hm. simpl.
  unfold post_stats_body, bind, get_object_or_404. rewrite Hp. done.
Qed.

Lemma likes_plus_dislikes (l : list (nat * Like.t)) (p : nat) :
  Forall (λ kr, valid_kind (Like.reaction kr.2)) l →
  length (filter (λ kr : nat * Like.t, Like.post kr.2 = p) l) =
    length (filter (λ kr : nat * Like.t,
                      Like.post kr.2 = p ∧ Like.reaction kr.2 = Like.LIKE) l)
    + length (filter (λ kr : nat * Like.t,
                      Like.post kr.2 = p ∧ Like.reaction kr.2 = Like.DISLIKE) l).
Proof.
  induction 1 as [|kr l Hkr _ IH]; [done|].
  rewrite !filter_cons.
  destruct (decide (Like.post kr.2 = p)) as [Hp|Hp].
  - destruct Hkr as [Hk|Hk].
    + rewrite decide_True by done.
      rewrite decide_False by (rewrite Hk; intros [_ ?]; done).
      simpl. lia.
    + rewrite decide_False by (rewrite Hk; intros [_ ?]; done).
      rewrite decide_True by done.
      simpl. lia.
  - rewrite !decide_False by tauto. done.
Qed.

Lemma count_rows_split st p :
  reaction_choices st →
  count_reaction_rows st p =
    count_reactions st p Like.LIKE + count_reactions st p Like.DISLIKE.
Proof.
  intros Hch. unfold count_reaction_rows, count_reactions.
  apply likes_plus_dislikes. apply Forall_forall. intros [pk row] Hin.
  apply elem_of_map_to_list in Hin. by apply (Hch pk).
Qed.

Lemma count_reactions_le st p k :
  count_reactions st p k ≤ count_reaction_rows st p.
Proof.
  unfold count_reactions, count_reaction_rows.
  induction (map_to_list (likes st)) as [|kr l IH]; [done|].
  rewrite !filter_cons.
  destruct (decide (Like.post kr.2 = p)) as [Hp|Hp].
  - case_decide; simpl; lia.
  - rewrite decide_False by tauto. done.
Qed.

(** C3.  On an existing post [post_stats] answers 200 with four counts
    read from the stored rows: [likes_count] and [dislikes_count] are the
    numbers of the post's reactions of each kind, [comments_count] the number
    of its comments, [total_reactions] the number of its reaction rows,
    which is the sum of the two kinds when every stored kind is a like or a
    dislike; with no reaction row and no comment for the post the four
    counts are 0. *)
Theorem post_stats_counts (request : Request) (post_id : nat) (st : Store) :
  method request = "GET" →
  is_Some (posts st !! post_id) →
  let response := (post_stats request post_id st).1 in
  status_code response = HTTP_200_OK
  ∧ dict_lookup (body response) "likes_count"
      = Some (JNum (count_reactions st post_id Like.LIKE))
  ∧ dict_lookup (body response) "dislikes_count"
      = Some (JNum (count_reactions st post_id Like.DISLIKE))
  ∧ dict_lookup (body response) "comments_count"
      = Some (JNum (count_comments st post_id))
  ∧ dict_lookup (body response) "total_reactions"
      = Some (JNum (count_reaction_rows st post_id))
  ∧ (reaction_choices st →
       dict_lookup (body response) "total_reactions"
       = Some (JNum (count_reactions st post_id Like.LIKE
                     + count_reactions st post_id Like.DISLIKE)))
  ∧ (count_reaction_rows st post_id = 0 → count_comments st post_id = 0 →
       body response = stats_body 0 0 0 0).
Proof.
  intros Hm Hp response. subst response.
  rewrite (post_stats_found _ _ _ Hm Hp). simpl.
  repeat split; try done.
  - intros Hch. by rewrite <- count_rows_split.
  - intros Hr Hc.
    pose proof (count_reactions_le st post_id Like.LIKE).
    pose proof (count_reactions_le st post_id Like.DISLIKE).
    rewrite Hr, Hc.
    replace (count_reactions st post_id Like.LIKE) with 0 by lia.
    replace (count_reactions st post_id Like.DISLIKE) with 0 by lia.
    done.
Qed.

(** * Responses of the toggle *)

Lemma dict_get_lookup {A} (d : list (string * A)) key dflt :
  dict_get d key dflt = default dflt (dict_lookup d key).
Proof.
  induction d as [|[k v] d IH]; simpl; [done|]. by case_decide.
Qed.

Lemma toggle_like_success request u post_id st :
  toggle_call request u →
  is_Some (posts st !! post_id) →
  valid_kind (requested request) →
  unique_together st →
  status_code (toggle_like request post_id st).1 = HTTP_200_OK.
Proof.
  intros Hcall Hpost Hkind Huniq.
  destruct (toggle_like_path request u post_id st Hcall)
    as [Hnone|? ?|? ? ? ? ? ? ?|? ? ? ? ? ?|? ? ? ? ? ? ? ?|_ _ Hmany]; try done.
  - rewrite Hnone in Hpost. by destruct Hpost.
  - specialize (Huniq u post_id). lia.
Qed.

(** C4, as amended.  A toggle call of an authenticated user on an existing
    post with a valid kind, on a database with at most one row per pair,
    answers 200.  When the reaction was removed the body is the single field
    [status] with the text [reaction removed], and no row is left for the
    pair.  Otherwise the body is the serialized row now stored for the pair,
    with fields [id], [user], [post], [reaction], [created_at], whose
    reaction is the requested kind. *)
Theorem toggle_response_shape (request : Request) (u : User.t)
    (post_id : nat) (st : Store) :
  toggle_call request u →
  is_Some (posts st !! post_id) →
  valid_kind (requested request) →
  unique_together st →
  let response := (toggle_like request post_id st).1 in
  let st' := (toggle_like request post_id st).2 in
  status_code response = HTTP_200_OK
  ∧ ((body response = [("status", JStr "reaction removed")]
      ∧ filter (for_pair u post_id) (likes st') = ∅)
     ∨ (∃ pk row,
          body response = LikeSerializer (pk, row)
          ∧ likes st' !! pk = Some row
          ∧ for_pair u post_id (pk, row)
          ∧ Like.reaction row = requested request)).
Proof.
  intros Hcall Hpost Hkind Huniq response st'. subst response st'.
  split; [by eapply toggle_like_success|].
  destruct (toggle_like_path request u post_id st Hcall)
    as [Hnone|? Hbad|pk row _ _ He Hpk Hrow
       |pk row _ _ Hs Heq|pk row row' _ _ Hs Hne Hrow'|_ _ Hmany].
  - rewrite Hnone in Hpost. by destruct Hpost.
  - done.
  - right. exists pk, row. simpl. rewrite lookup_insert_eq.
    rewrite Hrow. done.
  - left. simpl. split; [done|].
    by rewrite map_filter_delete, Hs, delete_singleton_eq.
  - right. exists pk, row'. simpl. rewrite lookup_insert_eq.
    destruct (filter_single_lookup _ _ _ _ _ Hs) as [_ Hp].
    rewrite Hrow'. done.
  - specialize (Huniq u post_id). lia.
Qed.

(** * Rejected calls *)

(** C5.  A toggle call of an authenticated user on an existing post whose
    [reaction] field is present and is neither a like nor a dislike answers
    400, leaves the database as it was, with no write statement issued, and
    every later [post_stats] answers as before the call. *)
Theorem invalid_kind_rejected (request : Request) (u : User.t)
    (post_id : nat) (st : Store) (k : string) :
  toggle_call request u →
  is_Some (posts st !! post_id) →
  dict_lookup (data request) "reaction" = Some k →
  ¬ valid_kind k →
  let response := (toggle_like request post_id st).1 in
  let st' := (toggle_like request post_id st).2 in
  status_code response = HTTP_400_BAD_REQUEST
  ∧ st' = st
  ∧ likes st' = likes st
  ∧ queries st' = queries st
  ∧ ∀ rq p, (post_stats rq p st').1 = (post_stats rq p st).1.
Proof.
  intros Hcall Hpost Hk Hbad response st'. subst response st'.
  assert (requested request = k) as Hreq.
  { unfold requested. by rewrite dict_get_lookup, Hk. }
  destruct (toggle_like_path request u post_id st Hcall)
    as [Hnone|? _|? ? ? Hv|? ? ? Hv|? ? ? ? Hv|? Hv ?];
    try (rewrite Hreq in Hv; done).
  - rewrite Hnone in Hpost. by destruct Hpost.
  - done.
Qed.

(** C6.  For a post identifier with no post, a toggle call of an
    authenticated user and a [post_stats] request both answer 404 and leave
    the database as it was. *)
Theorem missing_post_not_found (post_id : nat) (st : Store) :
  posts st !! post_id = None →
  (∀ request u, toggle_call request u →
     status_code (toggle_like request post_id st).1 = HTTP_404_NOT_FOUND
     ∧ (toggle_like request post_id st).2 = st)
  ∧ (∀ request, method request = "GET" →
     status_code (post_stats request post_id st).1 = HTTP_404_NOT_FOUND
     ∧ (post_stats request post_id st).2 = st).
Proof.
  intros Hnone. split.
  - intros request u Hcall.
    destruct (toggle_like_path request u post_id st Hcall)
      as [_|Hp _|? ? Hp|? ? Hp|? ? ? Hp|Hp]; try done;
      rewrite Hnone in Hp; by destruct Hp.
  - intros request Hm. by rewrite post_stats_missing.
Qed.

(** C10.  A toggle call of an authenticated user whose post identifier has
    no post and whose requested kind is invalid answers 404 and not 400: the
    post is looked up before the kind is checked. *)
Theorem missing_post_checked_first (request : Request) (u : User.t)
    (post_id : nat) (st : Store) :
  toggle_call request u →
  posts st !! post_id = None →
  ¬ valid_kind (requested request) →
  status_code (toggle_like request post_id st).1 = HTTP_404_NOT_FOUND
  ∧ status_code (toggle_like request post_id st).1 ≠ HTTP_400_BAD_REQUEST.
Proof.
  intros Hcall Hnone Hbad.
  destruct (toggle_like_path request u post_id st Hcall)
    as [_|Hp _|? ? Hp|? ? Hp|? ? ? Hp|Hp];
    try (rewrite Hnone in Hp; by destruct Hp).
  done.
Qed.

(** * The default kind *)





(** * The write of a toggle and its frame *)

Lemma filter_frame (P : nat * Like.t → Prop) `{!∀ x, Decision (P x)}
    (m m' : gmap nat Like.t) pk :
  (∀ pk', pk' ≠ pk → m' !! pk' = m !! pk') →
  (∀ row, m !! pk = Some row → ¬ P (pk, row)) →
  (∀ row, m' !! pk = Some row → ¬ P (pk, row)) →
  filter P m' = filter P m.
Proof.
  intros Hother Hm Hm'. apply map_filter_strong_ext. intros i x.
  destruct (decide (i = pk)) as [->|Hne].
  - split; intros [HP Hl]; [by destruct (Hm' x)|by destruct (Hm x)].
  - by rewrite Hother.
Qed.

(** C7.  A toggle call that answers 200 issues exactly one write statement,
    an insert, an update or a delete, on one primary key of the [Like]
    table: the row at that key changes and belongs to the acting pair, the
    rows at all other keys, the rows of every other pair, the comments and
    the posts stay as they were. *)
Theorem toggle_writes_once (request : Request) (u : User.t)
    (post_id : nat) (st : Store) :
  toggle_call request u →
  status_code (toggle_like request post_id st).1 = HTTP_200_OK →
  let st' := (toggle_like request post_id st).2 in
  ∃ w, queries st' = (queries st ++ [w])%list
    ∧ write_effect w (likes st) (likes st')
    ∧ likes st' !! write_pk w ≠ likes st !! write_pk w
    ∧ (∀ row, likes st !! write_pk w = Some row ∨ likes st' !! write_pk w = Some row →
         for_pair u post_id (write_pk w, row))
    ∧ (∀ pk, pk ≠ write_pk w → likes st' !! pk = likes st !! pk)
    ∧ (∀ u' p', ¬ (User.pk u' = User.pk u ∧ p' = post_id) →
         filter (for_pair u' p') (likes st') = filter (for_pair u' p') (likes st))
    ∧ comments st' = comments st
    ∧ posts st' = posts st.
Proof.
  intros Hcall Hok st'. subst st'.
  assert (∀ (m m' : gmap nat Like.t) pk,
    (∀ row, m !! pk = Some row ∨ m' !! pk = Some row → for_pair u post_id (pk, row)) →
    (∀ pk', pk' ≠ pk → m' !! pk' = m !! pk') →
    ∀ u' p', ¬ (User.pk u' = User.pk u ∧ p' = post_id) →
      filter (for_pair u' p') m' = filter (for_pair u' p') m) as Hframe.
  { intros m m' pk Hrow Hother u' p' Hne.
    apply (filter_frame _ m m' pk Hother); intros row Hl [Hu Hp].
    - destruct (Hrow row (or_introl Hl)) as [Hu0 Hp0]. simpl in *.
      apply Hne. split; congruence.
    - destruct (Hrow row (or_intror Hl)) as [Hu0 Hp0]. simpl in *.
      apply Hne. split; congruence. }
  destruct (toggle_like_path request u post_id st Hcall)
    as [?|? ?|pk row _ _ He Hpk Hrow
       |pk row _ _ Hs Heq|pk row row' _ _ Hs Hne Hrow'|? ? ?]; try done.
  - assert (likes st !! pk = None) as Hfresh by (rewrite Hpk; apply fresh_pk).
    assert (for_pair u post_id (pk, row)) as Hpair by (by rewrite Hrow).
    exists (INSERT pk row). simpl. rewrite lookup_insert_eq, Hfresh.
    assert (∀ row0, None = Some row0 ∨ Some row = Some row0 →
                    for_pair u post_id (pk, row0)) as Hmine.
    { intros row0 [?|[= <-]]; done. }
    assert (∀ pk', pk' ≠ pk → <[pk:=row]> (likes st) !! pk' = likes st !! pk')
      as Hother by (intros pk' ?; by rewrite lookup_insert_ne).
    split_and!; try done.
    apply (Hframe _ _ pk); [|done].
    by rewrite lookup_insert_eq, Hfresh.
  - destruct (filter_single_lookup _ _ _ _ _ Hs) as [Hl Hpair].
    exists (DELETE pk). simpl. rewrite lookup_delete_eq, Hl.
    assert (∀ row0, Some row = Some row0 ∨ None = Some row0 →
                    for_pair u post_id (pk, row0)) as Hmine.
    { intros row0 [[= <-]|?]; done. }
    assert (∀ pk', pk' ≠ pk → delete pk (likes st) !! pk' = likes st !! pk')
      as Hother by (intros pk' ?; by rewrite lookup_delete_ne).
    split_and!; try done.
    apply (Hframe _ _ pk); [|done].
    by rewrite lookup_delete_eq, Hl.
  - destruct (filter_single_lookup _ _ _ _ _ Hs) as [Hl Hpair].
    assert (for_pair u post_id (pk, row')) as Hpair' by (by rewrite Hrow').
    exists (UPDATE pk row'). simpl. rewrite lookup_insert_eq, Hl.
    assert (∀ row0, Some row = Some row0 ∨ Some row' = Some row0 →
                    for_pair u post_id (pk, row0)) as Hmine.
    { intros row0 [[= <-]|[= <-]]; done. }
    assert (∀ pk', pk' ≠ pk → <[pk:=row']> (likes st) !! pk' = likes st !! pk')
      as Hother by (intros pk' ?; by rewrite lookup_insert_ne).
    split_and!; try done.
    + intros [= Heq']. apply Hne. rewrite <- Heq', Hrow'. done.
    + apply (Hframe _ _ pk); [|done].
      by rewrite lookup_insert_eq, Hl.
Qed.

(** * The branches of the toggle, as equations *)

Lemma filter_insert_fresh_pair u p (m : gmap nat Like.t) pk row :
  filter (for_pair u p) m = ∅ → for_pair u p (pk, row) →
  filter (for_pair u p) (<[pk := row]> m) = {[pk := row]}.
Proof.
  intros He Hp. rewrite map_filter_insert_True by done.
  by rewrite He, insert_empty.
Qed.

Lemma filter_delete_single u p (m : gmap nat Like.t) pk row :
  filter (for_pair u p) m = {[pk := row]} →
  filter (for_pair u p) (delete pk m) = ∅.
Proof. intros Hs. by rewrite map_filter_delete, Hs, delete_singleton_eq. Qed.

Lemma filter_update_single u p (m : gmap nat Like.t) pk row row' :
  filter (for_pair u p) m = {[pk := row]} → for_pair u p (pk, row') →
  filter (for_pair u p) (<[pk := row']> m) = {[pk := row']}.
Proof.
  intros Hs Hp. rewrite map_filter_insert_True by done.
  by rewrite Hs, insert_singleton_eq.
Qed.

Lemma toggle_like_creates request u post_id st :
  toggle_call request u →
  is_Some (posts st !! post_id) →
  valid_kind (requested request) →
  filter (for_pair u post_id) (likes st) = ∅ →
  let pk := fresh (issued st) in
  let row := Like.mk u post_id (requested request) (now request) in
  toggle_like request post_id st
  = (mkResponse (LikeSerializer (pk, row)) HTTP_200_OK,
     with_likes st (<[pk := row]> (likes st)) (INSERT pk row)).
Proof.
  intros Hcall Hpost Hkind He pk row.
  rewrite (surjective_pairing (toggle_like request post_id st)).
  destruct (toggle_like_path request u post_id st Hcall)
    as [Hnone|? Hbad|pk0 row0 _ _ _ -> ->
       |pk0 row0 _ _ Hs _|pk0 row0 row' _ _ Hs _ _|_ _ Hmany].
  - rewrite Hnone in Hpost. by destruct Hpost.
  - done.
  - done.
  - rewrite He in Hs. by apply (f_equal (λ m, m !! pk0)) in Hs;
      rewrite lookup_empty, lookup_singleton_eq in Hs.
  - rewrite He in Hs. by apply (f_equal (λ m, m !! pk0)) in Hs;
      rewrite lookup_empty, lookup_singleton_eq in Hs.
  - rewrite He, map_size_empty in Hmany. lia.
Qed.

Lemma toggle_like_removes request u post_id st pk row :
  toggle_call request u →
  is_Some (posts st !! post_id) →
  valid_kind (requested request) →
  filter (for_pair u post_id) (likes st) = {[pk := row]} →
  Like.reaction row = requested request →
  toggle_like request post_id st
  = (removed_200, with_likes st (delete pk (likes st)) (DELETE pk)).
Proof.
  intros Hcall Hpost Hkind Hs Heq.
  destruct (filter_single_lookup _ _ _ _ _ Hs) as [Hl Hpair].
  rewrite (surjective_pairing (toggle_like request post_id st)).
  destruct (toggle_like_path request u post_id st Hcall)
    as [Hnone|? Hbad|pk0 row0 _ _ He _ _
       |pk0 row0 _ _ Hs0 _|pk0 row0 row' _ _ Hs0 Hne _|_ _ Hmany].
  - rewrite Hnone in Hpost. by destruct Hpost.
  - done.
  - by destruct (filter_empty_none _ _ _ _ _ He Hl).
  - by destruct (filter_single_unique _ _ _ _ _ _ _ Hs0 Hl Hpair) as [-> _].
  - destruct (filter_single_unique _ _ _ _ _ _ _ Hs0 Hl Hpair) as [_ ->]. done.
  - rewrite Hs, map_size_singleton in Hmany. lia.
Qed.

(** * Two toggles at once *)

(** A run alone is the view. *)
Lemma run_alone_toggle_like request u post_id st :
  toggle_call request u →
  run_alone 5 request u post_id AtPostLookup st
  = (Finished (toggle_like request post_id st).1,
     (toggle_like request post_id st).2).
Proof.
  intros Hcall.
  assert (∀ n pc s, run_alone (S n) request u post_id pc s
          = run_alone n request u post_id
              (step request u post_id pc s).1 (step request u post_id pc s).2)
    as Hstep.
  { intros n pc s. unfold run_alone. rewrite Nat.iter_succ_r. simpl.
    by destruct (step _ _ _ _ _). }
  destruct (toggle_like_path request u post_id st Hcall)
    as [Hnone|[prow Hpost] Hbad|pk row [prow Hpost] Hkind He Hpk Hrow
       |pk row [prow Hpost] Hkind Hs Heq
       |pk row row' [prow Hpost] Hkind Hs Hne Hrow'|[prow Hpost] Hkind Hmany];
    rewrite Hstep; simpl; unfold get_object_or_404;
    rewrite ?Hnone, ?Hpost; simpl; [done|..];
    [rewrite bool_decide_false by (by rewrite valid_kind_elem)
    |rewrite bool_decide_true by (by rewrite valid_kind_elem)..]; simpl.
  - done.
  - rewrite (Like_get_empty _ _ _ He). simpl. unfold Like_create. simpl.
    rewrite decide_True by done. simpl. rewrite Hpk, Hrow. done.
  - rewrite (Like_get_single _ _ _ _ _ Hs). simpl.
    rewrite decide_True by done. done.
  - rewrite (Like_get_single _ _ _ _ _ Hs). simpl.
    rewrite decide_False by done.
    rewrite (Like_save_loaded _ _ _ _ _ _ _ Hs). simpl. by rewrite Hrow'.
  - rewrite (Like_get_many _ _ _ Hmany). done.
Qed.

Section race.
Variables (u : User.t) (post_id : nat) (k : string).
Hypothesis Hkind : valid_kind k.

Local Abbreviation either := (race_either u post_id k).

Lemma step_posts request pc st :
  posts (step request u post_id pc st).2 = posts st.
Proof.
  destruct pc; simpl; try done.
  - unfold get_object_or_404. destruct (posts st !! post_id); simpl; [|done].
    by destruct (negb _).
  - unfold Like_get. by destruct (map_to_list _) as [|? [|? ?]].
  - unfold Like_create. by case_decide.
  - unfold Like_get. by destruct (map_to_list _) as [|? [|? ?]].
  - case_decide; [done|]. unfold Like_save. by repeat case_decide.
Qed.

Lemma step_idle_empty request a b st :
  requested request = k →
  is_Some (posts st !! post_id) →
  idle a → idle b →
  filter (for_pair u post_id) (likes st) = ∅ →
  race_inv u post_id k
    (step request u post_id a st).1 b (step request u post_id a st).2.
Proof.
  intros Hreq [prow Hpost] Ha Hb He.
  destruct Ha as [->|[->| ->]]; simpl.
  - unfold get_object_or_404. rewrite Hpost, Hreq. simpl.
    rewrite bool_decide_true by (by rewrite valid_kind_elem). simpl.
    apply inv_idle; [right; by left|done|done].
  - rewrite (Like_get_empty _ _ _ He). simpl.
    apply inv_idle; [right; by right|done|done].
  - unfold Like_create. simpl. rewrite decide_True by done. simpl.
    eapply inv_created; [done|by left| |by rewrite Hreq].
    simpl. rewrite map_filter_insert_True by done.
    by rewrite He, insert_empty.
Qed.

Lemma step_waiting request a b st like :
  requested request = k →
  is_Some (posts st !! post_id) →
  created a like → waiting b like →
  filter (for_pair u post_id) (likes st) = {[like.1 := like.2]} →
  Like.reaction like.2 = k →
  race_inv u post_id k
    a (step request u post_id b st).1 (step request u post_id b st).2.
Proof.
  intros Hreq [prow Hpost] Ha Hb Hs Hk.
  assert (Like_get u post_id st = (Ok like, st)) as Hget.
  { rewrite (Like_get_single _ _ _ _ _ Hs). by destruct like. }
  destruct Hb as [[->|[->| ->]]|[->| ->]]; simpl.
  - unfold get_object_or_404. rewrite Hpost, Hreq. simpl.
    rewrite bool_decide_true by (by rewrite valid_kind_elem). simpl.
    eapply inv_created; [done| |done|done]. left. right. by left.
  - rewrite Hget. simpl.
    eapply inv_created; [done| |done|done]. right. by right.
  - unfold Like_create. simpl. rewrite decide_False; simpl.
    + eapply inv_created; [done| |done|done]. right. by left.
    + rewrite Hs. intros Hemp.
      assert (({[like.1 := like.2]} : gmap nat Like.t) !! like.1 = None)
        as Hl by (by rewrite Hemp).
      by rewrite lookup_singleton_eq in Hl.
  - rewrite Hget. simpl.
    eapply inv_created; [done| |done|done]. right. by right.
  - rewrite decide_True by (by rewrite Hk, Hreq). simpl.
    eapply inv_removed; [done|done|]. simpl.
    by rewrite map_filter_delete, Hs, delete_singleton_eq.
Qed.

Lemma step_either request a b st :
  requested request = k →
  either a b st →
  either (step request u post_id a st).1 b (step request u post_id a st).2.
Proof.
  intros Hreq [Hpost Hinv]. split; [by rewrite step_posts|].
  destruct Hinv as [Hinv|Hinv].
  - destruct Hinv as [a b st Ha Hb He|a b st like Ha Hb Hs Hk|a b st like Ha Hb He].
    + left. by apply step_idle_empty.
    + rewrite Ha. left. by eapply inv_created.
    + rewrite Ha. left. by eapply inv_removed.
  - destruct Hinv as [b a st Hb Ha He|b a st like Hb Ha Hs Hk|b a st like Hb Ha He].
    + left. by apply step_idle_empty.
    + right. by eapply step_waiting.
    + rewrite Ha. right. by eapply inv_removed.
Qed.

Lemma either_sym a b st : either a b st → either b a st.
Proof. intros [? [?|?]]; split; auto. Qed.

Lemma interleave_either rqA rqB schedule c :
  requested rqA = k → requested rqB = k →
  either (pcA c) (pcB c) (db c) →
  let c' := interleave rqA rqB u post_id schedule c in
  either (pcA c') (pcB c') (db c').
Proof.
  intros HA HB. revert c.
  induction schedule as [|first schedule IH]; intros c Hc; [done|].
  simpl. apply IH. destruct first; simpl.
  - by apply step_either.
  - apply either_sym. apply step_either; [done|]. by apply either_sym.
Qed.

Lemma either_rows a b st :
  either a b st →
  size (filter (for_pair u post_id) (likes st)) ≤ 1
  ∧ (finished a → finished b →
     filter (for_pair u post_id) (likes st) = ∅
     ∧ ∃ ra rb, a = Finished ra ∧ b = Finished rb
         ∧ status_code ra = HTTP_200_OK ∧ status_code rb = HTTP_200_OK).
Proof.
  assert (∀ a b st, race_inv u post_id k a b st →
    size (filter (for_pair u post_id) (likes st)) ≤ 1
    ∧ (finished a → finished b →
       filter (for_pair u post_id) (likes st) = ∅
       ∧ ∃ ra rb, a = Finished ra ∧ b = Finished rb
           ∧ status_code ra = HTTP_200_OK ∧ status_code rb = HTTP_200_OK))
    as Hone.
  { intros a0 b0 st0 Hinv.
    destruct Hinv as [a0 b0 st0 Ha Hb He|a0 b0 st0 like Ha Hb Hs Hk
                     |a0 b0 st0 like Ha Hb He].
    - rewrite He, map_size_empty. split; [lia|].
      intros Hfa. by destruct Ha as [->|[->| ->]].
    - rewrite Hs, map_size_singleton. split; [lia|].
      intros _ Hfb. by destruct Hb as [[->|[->| ->]]|[->| ->]].
    - rewrite He, map_size_empty. split; [lia|].
      intros _ _. split; [done|]. rewrite Ha, Hb. by eexists _, _. }
  intros [_ [Hinv|Hinv]].
  - by apply Hone.
  - destruct (Hone _ _ _ Hinv) as [Hsz Hfin]. split; [done|].
    intros Hfa Hfb. destruct (Hfin Hfb Hfa) as [He (rb & ra & ? & ? & ? & ?)].
    split; [done|]. by exists ra, rb.
Qed.
End race.

Lemma step_rank request u post_id pc st :
  rank (step request u post_id pc st).1 ≤ pred (rank pc).
Proof.
  destruct pc; simpl; try lia.
  - unfold get_object_or_404. destruct (posts st !! post_id); simpl; [|lia].
    destruct (negb _); simpl; lia.
  - unfold Like_get. destruct (map_to_list _) as [|? [|? ?]]; simpl; lia.
  - unfold Like_create. case_decide; simpl; lia.
  - unfold Like_get. destruct (map_to_list _) as [|? [|? ?]]; simpl; lia.
  - case_decide; simpl; [lia|]. unfold Like_save.
    repeat case_decide; simpl; lia.
Qed.

Lemma rank_0_finished pc : rank pc = 0 → finished pc.
Proof. by destruct pc. Qed.

Lemma interleave_rank rqA rqB u post_id schedule c :
  let c' := interleave rqA rqB u post_id schedule c in
  rank (pcA c') ≤ rank (pcA c) - turns true schedule
  ∧ rank (pcB c') ≤ rank (pcB c) - turns false schedule.
Proof.
  revert c. induction schedule as [|first schedule IH]; intros c; simpl.
  - unfold turns. simpl. lia.
  - destruct (IH (race_step rqA rqB u post_id c first)) as [HA HB].
    unfold turns in *. rewrite !filter_cons.
    destruct first; simpl in *.
    + pose proof (step_rank rqA u post_id (pcA c) (db c)). split; lia.
    + pose proof (step_rank rqB u post_id (pcB c) (db c)). split; lia.
Qed.

Lemma run_alone_S n request u post_id pc st :
  run_alone (S n) request u post_id pc st
  = run_alone n request u post_id
      (step request u post_id pc st).1 (step request u post_id pc st).2.
Proof.
  unfold run_alone. rewrite Nat.iter_succ_r. simpl.
  by destruct (step _ _ _ _ _).
Qed.

Lemma interleave_first rqA rqB u post_id n c :
  interleave rqA rqB u post_id (replicate n true) c
  = mkRace (run_alone n rqA u post_id (pcA c) (db c)).1 (pcB c)
      (run_alone n rqA u post_id (pcA c) (db c)).2.
Proof.
  revert c. induction n as [|n IH]; intros c.
  - by destruct c.
  - rewrite run_alone_S. unfold interleave in *. simpl. rewrite IH. done.
Qed.

Lemma interleave_second rqA rqB u post_id n c :
  interleave rqA rqB u post_id (replicate n false) c
  = mkRace (pcA c) (run_alone n rqB u post_id (pcB c) (db c)).1
      (run_alone n rqB u post_id (pcB c) (db c)).2.
Proof.
  revert c. induction n as [|n IH]; intros c.
  - by destruct c.
  - rewrite run_alone_S. unfold interleave in *. simpl. rewrite IH. done.
Qed.

(** Scheduled one after the other, the two runs are two calls of the view
    in sequence. *)
Lemma interleave_serial rqA rqB u post_id st :
  toggle_call rqA u → toggle_call rqB u →
  let first := toggle_like rqA post_id st in
  let second := toggle_like rqB post_id first.2 in
  interleave rqA rqB u post_id (replicate 5 true ++ replicate 5 false)
    (mkRace AtPostLookup AtPostLookup st)
  = mkRace (Finished first.1) (Finished second.1) second.2.
Proof.
  intros HA HB. unfold interleave. rewrite foldl_app.
  fold (interleave rqA rqB u post_id (replicate 5 true)
          (mkRace AtPostLookup AtPostLookup st)).
  rewrite interleave_first. cbn [pcA pcB db].
  rewrite run_alone_toggle_like by done. cbn [fst snd].
  match goal with
  | |- foldl _ ?c _ = _ =>
      change (interleave rqA rqB u post_id (replicate 5 false) c = 
              mkRace (Finished (toggle_like rqA post_id st).1)
                (Finished (toggle_like rqB post_id (toggle_like rqA post_id st).2).1)
                (toggle_like rqB post_id (toggle_like rqA post_id st).2).2)
  end.
  rewrite interleave_second. cbn [pcA pcB db].
  rewrite run_alone_toggle_like by done. done.
Qed.

(** The three statements of a run that finds the row of its kind. *)
Lemma step_post_found request u post_id st :
  is_Some (posts st !! post_id) → valid_kind (requested request) →
  step request u post_id AtPostLookup st = (AtGet, st).
Proof.
  intros [prow Hp] Hk. simpl. unfold get_object_or_404. rewrite Hp.
  by rewrite bool_decide_true by (by rewrite valid_kind_elem).
Qed.

Lemma step_get_found request u post_id st pk row :
  filter (for_pair u post_id) (likes st) = {[pk := row]} →
  step request u post_id AtGet st = (AtWrite (pk, row), st).
Proof. intros Hs. simpl. by rewrite (Like_get_single _ _ _ _ _ Hs). Qed.

Lemma step_write_same request u post_id st pk row :
  Like.reaction row = requested request →
  step request u post_id (AtWrite (pk, row)) st
  = (Finished removed_200, with_likes st (delete pk (likes st)) (DELETE pk)).
Proof. intros Heq. simpl. by rewrite decide_True by done. Qed.

(** When both runs look the stored row up before either writes, both
    delete it and both answer that the reaction was removed. *)
Lemma interleave_both_read rqA rqB u post_id st pk row :
  is_Some (posts st !! post_id) →
  valid_kind (requested rqA) → requested rqB = requested rqA →
  filter (for_pair u post_id) (likes st) = {[pk := row]} →
  Like.reaction row = requested rqA →
  interleave rqA rqB u post_id both_read (mkRace AtPostLookup AtPostLookup st)
  = mkRace (Finished removed_200) (Finished removed_200)
      (mkStore (posts st) (delete pk (delete pk (likes st))) (comments st)
         (queries st ++ [DELETE pk; DELETE pk])).
Proof.
  intros Hpost Hkind Hsame Hs Heq.
  unfold interleave, both_read. cbn [foldl race_step pcA pcB db].
  rewrite (step_post_found rqA) by done. cbn [fst snd].
  rewrite (step_get_found rqA _ _ _ _ _ Hs). cbn [fst snd].
  rewrite (step_post_found rqB) by (by rewrite ?Hsame). cbn [fst snd].
  rewrite (step_get_found rqB _ _ _ _ _ Hs). cbn [fst snd].
  rewrite (step_write_same rqA) by done. cbn [fst snd].
  rewrite (step_write_same rqB) by (by rewrite Hsame). cbn [fst snd].
  unfold with_likes. cbn [posts likes comments queries].
  by rewrite <- app_assoc.
Qed.

(** One after the other, the first call deletes the stored row of its kind
    and the second inserts a row again. *)
Lemma toggle_like_in_turn rq1 rq2 u post_id st pk row :
  toggle_call rq1 u → toggle_call rq2 u →
  is_Some (posts st !! post_id) →
  valid_kind (requested rq1) → requested rq2 = requested rq1 →
  filter (for_pair u post_id) (likes st) = {[pk := row]} →
  Like.reaction row = requested rq1 →
  size (filter (for_pair u post_id)
          (likes (toggle_like rq2 post_id (toggle_like rq1 post_id st).2).2)) = 1.
Proof.
  intros Hc1 Hc2 Hpost Hkind Hsame Hs Heq.
  rewrite (toggle_like_removes rq1 u post_id st pk row) by done. cbn [snd].
  rewrite (toggle_like_creates rq2 u post_id); try done.
  - cbn [snd]. unfold with_likes at 1. cbn [likes].
    rewrite (filter_insert_fresh_pair u post_id).
    + apply map_size_singleton.
    + simpl. by eapply filter_delete_single.
    + done.
  - by rewrite Hsame.
  - simpl. by eapply filter_delete_single.
Qed.

(** C9, as amended.  The two runs are not serialized; only the unique
    constraint stands between them.  Two toggle calls of the same user on
    the same existing post with the same valid kind, started with no row
    stored for the pair and run with their database statements interleaved
    in any order, never leave two rows for the pair: at every point at most
    one row is stored.  Each run ends within five of its own steps, and
    once both have ended both were answered 200 and no row is stored for the
    pair: one run inserted it and the other deleted it.  Scheduled one after
    the other, the two runs are the two calls of the view in sequence.
    Started with a row of the requested kind stored for the pair, the two
    runs can both read it before either writes: both then delete it and
    answer [reaction removed] and no row is left, where the two calls one
    after the other, in either order, leave one row. *)
Theorem concurrent_toggles_never_two (rqA rqB : Request) (u : User.t)
    (post_id : nat) (st : Store) (schedule : list bool) :
  toggle_call rqA u → toggle_call rqB u →
  is_Some (posts st !! post_id) →
  filter (for_pair u post_id) (likes st) = ∅ →
  valid_kind (requested rqA) → requested rqB = requested rqA →
  let c := interleave rqA rqB u post_id schedule
             (mkRace AtPostLookup AtPostLookup st) in
  size (filter (for_pair u post_id) (likes (db c))) ≤ 1
  ∧ (finished (pcA c) → finished (pcB c) →
     size (filter (for_pair u post_id) (likes (db c))) = 0
     ∧ ∃ ra rb, pcA c = Finished ra ∧ pcB c = Finished rb
         ∧ status_code ra = HTTP_200_OK ∧ status_code rb = HTTP_200_OK)
  ∧ (5 ≤ turns true schedule → finished (pcA c))
  ∧ (5 ≤ turns false schedule → finished (pcB c))
  ∧ interleave rqA rqB u post_id (replicate 5 true ++ replicate 5 false)
      (mkRace AtPostLookup AtPostLookup st)
    = mkRace (Finished (toggle_like rqA post_id st).1)
        (Finished (toggle_like rqB post_id (toggle_like rqA post_id st).2).1)
        (toggle_like rqB post_id (toggle_like rqA post_id st).2).2
  ∧ (∀ stored pk row,
       is_Some (posts stored !! post_id) →
       filter (for_pair u post_id) (likes stored) = {[pk := row]} →
       Like.reaction row = requested rqA →
       let r := interleave rqA rqB u post_id both_read
                  (mkRace AtPostLookup AtPostLookup stored) in
       pcA r = Finished removed_200
       ∧ pcB r = Finished removed_200
       ∧ queries (db r) = (queries stored ++ [DELETE pk; DELETE pk])%list
       ∧ size (filter (for_pair u post_id) (likes (db r))) = 0
       ∧ size (filter (for_pair u post_id)
                 (likes (toggle_like rqB post_id
                           (toggle_like rqA post_id stored).2).2)) = 1
       ∧ size (filter (for_pair u post_id)
                 (likes (toggle_like rqA post_id
                           (toggle_like rqB post_id stored).2).2)) = 1).
Proof.
  intros HcA HcB Hpost He Hkind Hsame c.
  pose proof (interleave_either u post_id (requested rqA) Hkind rqA rqB schedule
                (mkRace AtPostLookup AtPostLookup st) eq_refl Hsame) as Hinv.
  simpl in Hinv. fold c in Hinv.
  assert (is_Some (posts (db c) !! post_id)
          ∧ (race_inv u post_id (requested rqA) (pcA c) (pcB c) (db c)
             ∨ race_inv u post_id (requested rqA) (pcB c) (pcA c) (db c)))
    as Hc.
  { apply Hinv. split; [done|]. left. apply inv_idle; [by left|by left|done]. }
  destruct (either_rows u post_id (requested rqA) _ _ _ Hc) as [Hsz Hfin].
  pose proof (interleave_rank rqA rqB u post_id schedule
                (mkRace AtPostLookup AtPostLookup st)) as [HrA HrB].
  fold c in HrA, HrB. simpl in HrA, HrB.
  split_and!.
  - done.
  - intros Hfa Hfb. destruct (Hfin Hfa Hfb) as [He' Hresp].
    split; [|done]. by rewrite He', map_size_empty.
  - intros Hturns. apply rank_0_finished. lia.
  - intros Hturns. apply rank_0_finished. lia.
  - by apply interleave_serial.
  - intros stored pk row Hstored Hs Heq r. subst r.
    rewrite (interleave_both_read rqA rqB u post_id stored pk row) by done.
    cbn [pcA pcB db queries likes].
    split_and!; try done.
    + rewrite delete_delete_eq.
      by rewrite (filter_delete_single u post_id _ pk row), map_size_empty.
    + by apply (toggle_like_in_turn rqA rqB u post_id stored pk row).
    + apply (toggle_like_in_turn rqB rqA u post_id stored pk row); try done.
      * by rewrite Hsame.
      * by rewrite Hsame.
Qed.

(** * The invariants, checked and kept *)

Lemma NoDup_key_filter (l : list (nat * Like.t)) u p :
  NoDup (pair_key <$> l) → length (filter (for_pair u p) l) ≤ 1.
Proof.
  induction l as [|kr l IH]; simpl; [lia|].
  intros Hnd. apply NoDup_cons in Hnd as [Hnotin Hnd].
  rewrite filter_cons. case_decide as HP; [|by apply IH].
  assert (filter (for_pair u p) l = []) as ->; [|simpl; lia].
  destruct (filter (for_pair u p) l) as [|kr' l'] eqn:E; [done|].
  assert (kr' ∈ filter (for_pair u p) l) as Hin by (rewrite E; left).
  apply list_elem_of_filter in Hin as [HP' Hin]. destruct Hnotin.
  apply list_elem_of_fmap. exists kr'. split; [|done].
  unfold pair_key. destruct HP as [-> ->], HP' as [-> ->]. done.
Qed.

Lemma unique_together_checked st :
  unique_together_check st = true → unique_together st.
Proof.
  intros Hc u p. apply bool_decide_eq_true in Hc.
  rewrite size_filter_list. by apply NoDup_key_filter.
Qed.

Lemma reaction_choices_checked st :
  reaction_choices_check st = true → reaction_choices st.
Proof.
  intros Hc pk row Hl. unfold reaction_choices_check in Hc.
  rewrite forallb_forall in Hc.
  specialize (Hc (pk, row)). simpl in Hc.
  apply valid_kind_elem. eapply bool_decide_eq_true_1. apply Hc.
  apply list_elem_of_In. by apply elem_of_map_to_list.
Qed.

(** The toggle stores no kind other than a like or a dislike. *)
Lemma toggle_like_choices request post_id st :
  reaction_choices st → reaction_choices (toggle_like request post_id st).2.
Proof.
  intros Hch.
  destruct (toggle_like_rejected request post_id st) as [[u Hcall]| ->]; [|done].
  destruct (toggle_like_path request u post_id st Hcall)
    as [?|? ?|pk row _ Hk _ _ Hrow|pk row _ _ _ _|pk row row' _ Hk _ _ Hrow'|? ? ?];
    try done; intros pk0 row0; simpl.
  - rewrite lookup_insert. case_decide; [|by apply Hch].
    intros [= <-]. by rewrite Hrow.
  - rewrite lookup_delete. case_decide; [done|by apply Hch].
  - rewrite lookup_insert. case_decide; [|by apply Hch].
    intros [= <-]. by rewrite Hrow'.
Qed.

(** * The properties on the examples *)

Lemma toggle_three_branches_witness :
  likes (toggle_like (Example.toggle_request Example.user1 "dislike" 8) 7
           Example.liked).2
  = <[0 := Like.mk Example.user1 7 "dislike" 5]> (likes Example.liked).
Proof.
  refine (proj2 (proj2
    (toggle_three_branches (Example.toggle_request Example.user1 "dislike" 8)
       Example.user1 7 Example.liked _ _ _ _)) 0
    (Like.mk Example.user1 7 "like" 5) _ _ _).
  - split; reflexivity.
  - eexists. vm_compute. reflexivity.
  - right. reflexivity.
  - apply unique_together_checked. vm_compute. reflexivity.
  - vm_compute. reflexivity.
  - split; reflexivity.
  - vm_compute. discriminate.
Defined.

Lemma toggles_keep_at_most_one_witness :
  size (filter (for_pair Example.user1 7)
          (likes (run_toggles Example.calls Example.fresh_post))) ≤ 1
  ∧ size (filter (for_pair Example.user2 7)
            (likes (run_toggles Example.calls Example.fresh_post))) ≤ 1.
Proof.
  assert (unique_together Example.fresh_post) as Huniq
    by (apply unique_together_checked; vm_compute; reflexivity).
  destruct (toggles_keep_at_most_one Example.calls Example.fresh_post Huniq)
    as [Hseq _].
  split; apply Hseq.
Defined.

Lemma post_stats_counts_witness :
  let response := (post_stats Example.stats_request 7 Example.busy).1 in
  status_code response = 200
  ∧ dict_lookup (body response) "likes_count" = Some (JNum 2)
  ∧ dict_lookup (body response) "dislikes_count" = Some (JNum 1)
  ∧ dict_lookup (body response) "comments_count" = Some (JNum 2)
  ∧ dict_lookup (body response) "total_reactions" = Some (JNum 3)
  ∧ dict_lookup (body response) "total_reactions" = Some (JNum (2 + 1)).
Proof.
  assert (method Example.stats_request = "GET") as Hm by reflexivity.
  assert (is_Some (posts Example.busy !! 7)) as Hp
    by (eexists; vm_compute; reflexivity).
  assert (reaction_choices Example.busy) as Hch
    by (apply reaction_choices_checked; vm_compute; reflexivity).
  destruct (post_stats_counts Example.stats_request 7 Example.busy Hm Hp)
    as (Hs & Hl & Hd & Hc & Ht & Hsum & _).
  specialize (Hsum Hch).
  split; [exact Hs|]. split; [exact Hl|]. split; [exact Hd|].
  split; [exact Hc|]. split; [exact Ht|]. exact Hsum.
Defined.

(** C4, as the specification states it, fails: the body of a toggle that
    creates a reaction has no [status] field. *)
Lemma toggle_body_not_as_described :
  let response :=
    (toggle_like (Example.toggle_request Example.user1 "like" 5) 7
       Example.fresh_post).1 in
  status_code response = HTTP_200_OK
  ∧ dict_lookup (body response) "status" = None
  ∧ ¬ described_toggle_body (body response).
Proof.
  split; [vm_compute; reflexivity|]. split; [vm_compute; reflexivity|].
  intros [(s & Hs & _) _]. vm_compute in Hs. discriminate.
Qed.

Lemma toggle_response_shape_witness :
  let request := Example.toggle_request Example.user1 "dislike" 8 in
  let response := (toggle_like request 7 Example.liked).1 in
  let st' := (toggle_like request 7 Example.liked).2 in
  status_code response = HTTP_200_OK
  ∧ ((body response = [("status", JStr "reaction removed")]
      ∧ filter (for_pair Example.user1 7) (likes st') = ∅)
     ∨ (∃ pk row,
          body response = LikeSerializer (pk, row)
          ∧ likes st' !! pk = Some row
          ∧ for_pair Example.user1 7 (pk, row)
          ∧ Like.reaction row = requested request)).
Proof.
  apply (toggle_response_shape
           (Example.toggle_request Example.user1 "dislike" 8)
           Example.user1 7 Example.liked).
  - split; reflexivity.
  - eexists. vm_compute. reflexivity.
  - right. reflexivity.
  - apply unique_together_checked. vm_compute. reflexivity.
Defined.

Lemma invalid_kind_rejected_witness :
  let request := Example.toggle_request Example.user2 "angry" 8 in
  let response := (toggle_like request 7 Example.liked).1 in
  let st' := (toggle_like request 7 Example.liked).2 in
  status_code response = HTTP_400_BAD_REQUEST
  ∧ st' = Example.liked
  ∧ likes st' = likes Example.liked
  ∧ queries st' = queries Example.liked
  ∧ ∀ rq p, (post_stats rq p st').1 = (post_stats rq p Example.liked).1.
Proof.
  apply (invalid_kind_rejected
           (Example.toggle_request Example.user2 "angry" 8)
           Example.user2 7 Example.liked "angry").
  - split; reflexivity.
  - eexists. vm_compute. reflexivity.
  - reflexivity.
  - intros [H|H]; vm_compute in H; discriminate.
Defined.

Lemma missing_post_not_found_witness :
  (status_code
     (toggle_like (Example.toggle_request Example.user1 "like" 8) 8
        Example.liked).1 = HTTP_404_NOT_FOUND
   ∧ (toggle_like (Example.toggle_request Example.user1 "like" 8) 8
        Example.liked).2 = Example.liked)
  ∧ (status_code (post_stats Example.stats_request 8 Example.liked).1
       = HTTP_404_NOT_FOUND
     ∧ (post_stats Example.stats_request 8 Example.liked).2 = Example.liked).
Proof.
  assert (posts Example.liked !! 8 = None) as Hnone
    by (vm_compute; reflexivity).
  destruct (missing_post_not_found 8 Example.liked Hnone) as [Htoggle Hstats].
  split.
  - apply (Htoggle _ Example.user1). split; reflexivity.
  - apply Hstats. reflexivity.
Defined.

Lemma missing_post_checked_first_witness :
  let request := Example.toggle_request Example.user1 "angry" 8 in
  status_code (toggle_like request 8 Example.liked).1 = HTTP_404_NOT_FOUND
  ∧ status_code (toggle_like request 8 Example.liked).1 ≠ HTTP_400_BAD_REQUEST.
Proof.
  apply (missing_post_checked_first
           (Example.toggle_request Example.user1 "angry" 8)
           Example.user1 8 Example.liked).
  - split; reflexivity.
  - vm_compute. reflexivity.
  - intros [H|H]; vm_compute in H; discriminate.
Defined.



Lemma toggle_writes_once_witness :
  let request := Example.toggle_request Example.user1 "dislike" 8 in
  let st := Example.liked in
  let st' := (toggle_like request 7 st).2 in
  ∃ w, queries st' = (queries st ++ [w])%list
    ∧ write_effect w (likes st) (likes st')
    ∧ likes st' !! write_pk w ≠ likes st !! write_pk w
    ∧ (∀ row, likes st !! write_pk w = Some row ∨ likes st' !! write_pk w = Some row →
         for_pair Example.user1 7 (write_pk w, row))
    ∧ (∀ pk, pk ≠ write_pk w → likes st' !! pk = likes st !! pk)
    ∧ (∀ u' p', ¬ (User.pk u' = User.pk Example.user1 ∧ p' = 7) →
         filter (for_pair u' p') (likes st') = filter (for_pair u' p') (likes st))
    ∧ comments st' = comments st
    ∧ posts st' = posts st.
Proof.
  apply (toggle_writes_once
           (Example.toggle_request Example.user1 "dislike" 8)
           Example.user1 7 Example.liked).
  - split; reflexivity.
  - vm_compute. reflexivity.
Defined.

(** C9, as the specification states it, fails in both parts.  Two likes
    of one user from a table with no row for the pair, whether run one
    after the other or meeting at the insertion, both end and leave no row,
    not one.  And the runs are not serialized: from a table with the like
    stored, both runs can read the row before either writes; both delete it
    and no row is left, where the two calls one after the other, in either
    order, leave one row. *)
Lemma concurrent_likes_leave_no_row :
  (finished (pcA (Example.race Example.serial))
   ∧ finished (pcB (Example.race Example.serial))
   ∧ size (filter (for_pair Example.user1 7)
             (likes (db (Example.race Example.serial)))) ≠ 1)
  ∧ (finished (pcA (Example.race Example.contended))
     ∧ finished (pcB (Example.race Example.contended))
     ∧ size (filter (for_pair Example.user1 7)
               (likes (db (Example.race Example.contended)))) ≠ 1)
  ∧ (pcA (Example.race_liked both_read) = Finished removed_200
     ∧ pcB (Example.race_liked both_read) = Finished removed_200
     ∧ queries (db (Example.race_liked both_read)) = [DELETE 0; DELETE 0]
     ∧ size (filter (for_pair Example.user1 7)
               (likes (db (Example.race_liked both_read)))) = 0
     ∧ size (filter (for_pair Example.user1 7)
               (likes (Example.in_turn
                         (Example.toggle_request Example.user1 "like" 5)
                         (Example.toggle_request Example.user1 "like" 6)
                         Example.liked))) = 1
     ∧ size (filter (for_pair Example.user1 7)
               (likes (Example.in_turn
                         (Example.toggle_request Example.user1 "like" 6)
                         (Example.toggle_request Example.user1 "like" 5)
                         Example.liked))) = 1).
Proof.
  split; [|split].
  - split; [vm_compute; exact I|]. split; [vm_compute; exact I|].
    vm_compute. discriminate.
  - split; [vm_compute; exact I|]. split; [vm_compute; exact I|].
    vm_compute. discriminate.
  - split_and!; vm_compute; reflexivity.
Qed.

Lemma concurrent_toggles_never_two_witness :
  let rqA := Example.toggle_request Example.user1 "like" 5 in
  let rqB := Example.toggle_request Example.user1 "like" 6 in
  let c := Example.race Example.contended in
  size (filter (for_pair Example.user1 7) (likes (db c))) ≤ 1
  ∧ (finished (pcA c) → finished (pcB c) →
     size (filter (for_pair Example.user1 7) (likes (db c))) = 0
     ∧ ∃ ra rb, pcA c = Finished ra ∧ pcB c = Finished rb
         ∧ status_code ra = HTTP_200_OK ∧ status_code rb = HTTP_200_OK)
  ∧ (5 ≤ turns true Example.contended → finished (pcA c))
  ∧ (5 ≤ turns false Example.contended → finished (pcB c))
  ∧ interleave rqA rqB Example.user1 7 (replicate 5 true ++ replicate 5 false)
      (mkRace AtPostLookup AtPostLookup Example.fresh_post)
    = mkRace (Finished (toggle_like rqA 7 Example.fresh_post).1)
        (Finished (toggle_like rqB 7 (toggle_like rqA 7 Example.fresh_post).2).1)
        (toggle_like rqB 7 (toggle_like rqA 7 Example.fresh_post).2).2
  ∧ (∀ stored pk row,
       is_Some (posts stored !! 7) →
       filter (for_pair Example.user1 7) (likes stored) = {[pk := row]} →
       Like.reaction row = requested rqA →
       let r := interleave rqA rqB Example.user1 7 both_read
                  (mkRace AtPostLookup AtPostLookup stored) in
       pcA r = Finished removed_200
       ∧ pcB r = Finished removed_200
       ∧ queries (db r) = (queries stored ++ [DELETE pk; DELETE pk])%list
       ∧ size (filter (for_pair Example.user1 7) (likes (db r))) = 0
       ∧ size (filter (for_pair Example.user1 7)
                 (likes (toggle_like rqB 7 (toggle_like rqA 7 stored).2).2)) = 1
       ∧ size (filter (for_pair Example.user1 7)
                 (likes (toggle_like rqA 7 (toggle_like rqB 7 stored).2).2)) = 1).
Proof.
  apply (concurrent_toggles_never_two
           (Example.toggle_request Example.user1 "like" 5)
           (Example.toggle_request Example.user1 "like" 6)
           Example.user1 7 Example.fresh_post Example.contended).
  - split; reflexivity.
  - split; reflexivity.
  - eexists. vm_compute. reflexivity.
  - vm_compute. reflexivity.
  - left. reflexivity.
  - reflexivity.
Defined.

(** * The computed fields and the toggle *)

Lemma get_user_reaction_none rq u obj st :
  user rq = Some u →
  filter (for_pair u obj.1) (likes st) = ∅ →
  get_user_reaction (Some rq) obj st = (Ok None, st).
Proof.
  intros Hu He. unfold get_user_reaction. rewrite Hu.
  by rewrite (Like_get_empty _ _ _ He).
Qed.

Lemma get_user_reaction_single rq u obj st pk row :
  user rq = Some u →
  filter (for_pair u obj.1) (likes st) = {[pk := row]} →
  get_user_reaction (Some rq) obj st = (Ok (Some (Like.reaction row)), st).
Proof.
  intros Hu Hs. unfold get_user_reaction. rewrite Hu.
  by rewrite (Like_get_single _ _ _ _ _ Hs).
Qed.

Lemma count_reactions_size st p k :
  count_reactions st p k = size (filter (for_post_kind p k) (likes st)).
Proof. unfold count_reactions. by rewrite size_filter_list. Qed.

Section indicator.
Context (P : nat * Like.t → Prop) `{!∀ x, Decision (P x)}.

Lemma size_filter_insert_new (m : gmap nat Like.t) pk row :
  m !! pk = None →
  size (filter P (<[pk := row]> m)) = size (filter P m) + holds P (pk, row).
Proof.
  intros Hl. unfold holds. rewrite map_filter_insert. case_decide.
  - rewrite map_size_insert_None; [lia|].
    apply map_lookup_filter_None. by left.
  - rewrite delete_id by done. lia.
Qed.

Lemma size_filter_delete_old (m : gmap nat Like.t) pk row :
  m !! pk = Some row →
  size (filter P (delete pk m)) + holds P (pk, row) = size (filter P m).
Proof.
  intros Hl. rewrite <- (insert_delete_id m pk row Hl) at 2.
  rewrite size_filter_insert_new by apply lookup_delete_eq. done.
Qed.

Lemma size_filter_replace (m : gmap nat Like.t) pk row row' :
  m !! pk = Some row →
  size (filter P (<[pk := row']> m)) + holds P (pk, row)
  = size (filter P m) + holds P (pk, row').
Proof.
  intros Hl. rewrite <- (insert_delete_eq m).
  rewrite size_filter_insert_new by apply lookup_delete_eq.
  pose proof (size_filter_delete_old m pk row Hl). lia.
Qed.
End indicator.

Lemma holds_post_kind u post_id pk row p k :
  for_pair u post_id (pk, row) →
  holds (for_post_kind p k) (pk, row)
  = if decide (p = post_id) then counts_as (Some (Like.reaction row)) k else 0.
Proof.
  intros [_ Hp]. unfold holds, counts_as, for_post_kind. simpl in *.
  destruct (decide (p = post_id)) as [->|Hne].
  - destruct (decide (Like.reaction row = k)) as [Hk|Hk].
    + rewrite decide_True by done. by rewrite decide_True by (by rewrite Hk).
    + rewrite decide_False by tauto.
      by rewrite decide_False by (intros [= ?]; done).
  - rewrite decide_False; [done|]. intros [? _]. congruence.
Qed.

Lemma counts_as_None k : counts_as None k = 0.
Proof. done. Qed.

(** What a toggle that goes through does to the pair, to the counts and to
    the other tables. *)
Lemma toggle_like_effect request u post_id st :
  toggle_call request u →
  is_Some (posts st !! post_id) →
  valid_kind (requested request) →
  unique_together st →
  let st' := (toggle_like request post_id st).2 in
  ∃ prev,
    pair_state st u post_id prev
    ∧ pair_state st' u post_id (toggled prev (requested request))
    ∧ (∀ p k, count_reactions st' p k
              + (if decide (p = post_id) then counts_as prev k else 0)
              = count_reactions st p k
                + (if decide (p = post_id)
                   then counts_as (toggled prev (requested request)) k else 0))
    ∧ comments st' = comments st
    ∧ posts st' = posts st.
Proof.
  intros Hcall Hpost Hkind Huniq st'. subst st'.
  destruct (toggle_like_path request u post_id st Hcall)
    as [Hnone|? Hbad|pk row _ _ He Hpk Hrow
       |pk row _ _ Hs Heq|pk row row' _ _ Hs Hne Hrow'|_ _ Hmany].
  - rewrite Hnone in Hpost. by destruct Hpost.
  - done.
  - assert (likes st !! pk = None) as Hfresh by (rewrite Hpk; apply fresh_pk).
    assert (for_pair u post_id (pk, row)) as Hpair by (by rewrite Hrow).
    exists None. unfold toggled. rewrite decide_False by done. simpl.
    split_and!; try done.
    + exists pk, row. split; [by apply filter_insert_fresh_pair|by rewrite Hrow].
    + intros p k. rewrite !count_reactions_size. simpl.
      rewrite size_filter_insert_new by done.
      rewrite (holds_post_kind u post_id) by done.
      rewrite Hrow. simpl. rewrite counts_as_None. case_decide; lia.
  - destruct (filter_single_lookup _ _ _ _ _ Hs) as [Hl Hpair].
    exists (Some (Like.reaction row)). unfold toggled.
    rewrite decide_True by (by rewrite Heq). simpl.
    split_and!; try done.
    + by exists pk, row.
    + by eapply filter_delete_single.
    + intros p k. rewrite !count_reactions_size. simpl.
      pose proof (size_filter_delete_old (for_post_kind p k) _ _ _ Hl) as Hsz.
      rewrite (holds_post_kind u post_id) in Hsz by done.
      rewrite counts_as_None. case_decide; lia.
  - destruct (filter_single_lookup _ _ _ _ _ Hs) as [Hl Hpair].
    assert (for_pair u post_id (pk, row')) as Hpair' by (by rewrite Hrow').
    exists (Some (Like.reaction row)). unfold toggled.
    rewrite decide_False by (intros [= ?]; done). simpl.
    split_and!; try done.
    + by exists pk, row.
    + exists pk, row'. split; [by eapply filter_update_single|by rewrite Hrow'].
    + intros p k. rewrite !count_reactions_size. simpl.
      pose proof (size_filter_replace (for_post_kind p k) _ _ _ row' Hl) as Hsz.
      rewrite !(holds_post_kind u post_id) in Hsz by done.
      assert (Like.reaction row' = requested request) as Hk'
        by (by rewrite Hrow').
      rewrite Hk' in Hsz. case_decide; lia.
  - specialize (Huniq u post_id). lia.
Qed.

Lemma get_user_reaction_state rq u obj st r :
  user rq = Some u →
  pair_state st u obj.1 r →
  get_user_reaction (Some rq) obj st = (Ok r, st).
Proof.
  intros Hu Hst. destruct r as [k|]; simpl in Hst.
  - destruct Hst as (pk & row & Hs & <-). by eapply get_user_reaction_single.
  - by eapply get_user_reaction_none.
Qed.

(** X1.  Read back through [get_user_reaction], a toggle that goes through
    acts on the reader's own reaction as a switch: a user who had the
    requested kind stored has none afterwards, and a user who had none or
    the other kind has the requested kind. *)
Theorem toggle_read_back (request rq : Request) (u : User.t)
    (post_id : nat) (prow : Post.t) (st : Store) :
  toggle_call request u →
  posts st !! post_id = Some prow →
  valid_kind (requested request) →
  unique_together st →
  user rq = Some u →
  let st' := (toggle_like request post_id st).2 in
  ∃ prev,
    get_user_reaction (Some rq) (post_id, prow) st = (Ok prev, st)
    ∧ get_user_reaction (Some rq) (post_id, prow) st'
      = (Ok (toggled prev (requested request)), st').
Proof.
  intros Hcall Hpost Hkind Huniq Hu st'.
  assert (is_Some (posts st !! post_id)) as Hp by (by rewrite Hpost).
  destruct (toggle_like_effect request u post_id st Hcall Hp Hkind Huniq)
    as (prev & Hbefore & Hafter & _).
  exists prev. split; by eapply get_user_reaction_state.
Qed.

Lemma toggle_like_other_pairs request post_id st u' p' :
  (∀ u, user request = Some u → ¬ (User.pk u' = User.pk u ∧ p' = post_id)) →
  filter (for_pair u' p') (likes (toggle_like request post_id st).2)
  = filter (for_pair u' p') (likes st).
Proof.
  intros Hother.
  destruct (toggle_like_rejected request post_id st) as [[u Hcall]| ->]; [|done].
  specialize (Hother u (proj2 Hcall)).
  assert (∀ pk row, for_pair u post_id (pk, row) → ¬ for_pair u' p' (pk, row))
    as Hnot.
  { intros pk row [Hu Hp] [Hu' Hp']. simpl in *. apply Hother.
    split; congruence. }
  destruct (toggle_like_path request u post_id st Hcall)
    as [?|? ?|pk row _ _ He Hpk Hrow
       |pk row _ _ Hs _|pk row row' _ _ Hs _ Hrow'|? ? ?]; try done; simpl.
  - assert (for_pair u post_id (pk, row)) as Hpair by (by rewrite Hrow).
    apply map_filter_insert_not'; [by apply Hnot|].
    intros y Hy. rewrite Hpk, fresh_pk in Hy. done.
  - destruct (filter_single_lookup _ _ _ _ _ Hs) as [Hl Hpair].
    apply map_filter_delete_not. intros y Hy.
    rewrite Hl in Hy. injection Hy as <-. by apply Hnot.
  - destruct (filter_single_lookup _ _ _ _ _ Hs) as [Hl Hpair].
    assert (for_pair u post_id (pk, row')) as Hpair' by (by rewrite Hrow').
    apply map_filter_insert_not'; [by apply Hnot|].
    intros y Hy. rewrite Hl in Hy. injection Hy as <-. by apply Hnot.
Qed.

(** X2.  No toggle request, accepted or not, changes what
    [get_user_reaction] answers for another user or for another post. *)
Theorem toggle_leaves_other_readers (request rq : Request) (u' : User.t)
    (post_id : nat) (obj : nat * Post.t) (st : Store) :
  user rq = Some u' →
  (∀ u, user request = Some u →
     ¬ (User.pk u' = User.pk u ∧ obj.1 = post_id)) →
  (get_user_reaction (Some rq) obj (toggle_like request post_id st).2).1
  = (get_user_reaction (Some rq) obj st).1.
Proof.
  intros Hu Hother. unfold get_user_reaction, Like_get. rewrite Hu.
  rewrite (toggle_like_other_pairs request post_id st u' obj.1 Hother).
  by destruct (map_to_list _) as [|? [|? ?]].
Qed.

Lemma get_likes_count_reactions obj st :
  get_likes_count obj st = count_reactions st obj.1 Like.LIKE.
Proof. by rewrite count_reactions_size. Qed.

Lemma get_dislikes_count_reactions obj st :
  get_dislikes_count obj st = count_reactions st obj.1 Like.DISLIKE.
Proof. by rewrite count_reactions_size. Qed.

(** X3.  A toggle that goes through moves the counts of the post by the
    acting user's own reaction and by nothing else: [get_likes_count] and
    [get_dislikes_count] of the post lose the user's old reaction and gain
    the new one, the counts of every other post and all comment counts stay
    as they were. *)
Theorem toggle_moves_counts (request : Request) (u : User.t)
    (post_id : nat) (prow : Post.t) (st : Store) (prev : option string) :
  toggle_call request u →
  posts st !! post_id = Some prow →
  valid_kind (requested request) →
  unique_together st →
  (get_user_reaction (Some request) (post_id, prow) st).1 = Ok prev →
  let st' := (toggle_like request post_id st).2 in
  let next := toggled prev (requested request) in
  get_likes_count (post_id, prow) st' + counts_as prev Like.LIKE
    = get_likes_count (post_id, prow) st + counts_as next Like.LIKE
  ∧ get_dislikes_count (post_id, prow) st' + counts_as prev Like.DISLIKE
    = get_dislikes_count (post_id, prow) st + counts_as next Like.DISLIKE
  ∧ (∀ obj, obj.1 ≠ post_id →
       get_likes_count obj st' = get_likes_count obj st
       ∧ get_dislikes_count obj st' = get_dislikes_count obj st)
  ∧ (∀ p, count_comments st' p = count_comments st p).
Proof.
  intros Hcall Hpost Hkind Huniq Hprev st' next. subst st' next.
  assert (is_Some (posts st !! post_id)) as Hp by (by rewrite Hpost).
  destruct (toggle_like_effect request u post_id st Hcall Hp Hkind Huniq)
    as (prev' & Hbefore & _ & Hcount & Hcomments & _).
  rewrite (get_user_reaction_state request u (post_id, prow) st prev'
             (proj2 Hcall) Hbefore) in Hprev.
  injection Hprev as ->.
  rewrite !get_likes_count_reactions, !get_dislikes_count_reactions. simpl.
  split_and!.
  - pose proof (Hcount post_id Like.LIKE) as H.
    by rewrite !decide_True in H by done.
  - pose proof (Hcount post_id Like.DISLIKE) as H.
    by rewrite !decide_True in H by done.
  - intros obj Hne.
    rewrite !get_likes_count_reactions, !get_dislikes_count_reactions.
    pose proof (Hcount obj.1 Like.LIKE) as H1.
    pose proof (Hcount obj.1 Like.DISLIKE) as H2.
    rewrite !decide_False in H1, H2 by done. lia.
  - intros p. unfold count_comments. by rewrite Hcomments.
Qed.

(** X4.  Toggling the same kind twice is a round trip: for a user with no
    reaction stored on an existing post, the first call inserts a row and
    answers 200, the second answers [reaction removed], and the [Like]
    table, the posts and the comments are again exactly what they were. *)
Theorem toggle_twice_restores (rq1 rq2 : Request) (u : User.t)
    (post_id : nat) (st : Store) :
  toggle_call rq1 u → toggle_call rq2 u →
  is_Some (posts st !! post_id) →
  valid_kind (requested rq1) → requested rq2 = requested rq1 →
  filter (for_pair u post_id) (likes st) = ∅ →
  let first := toggle_like rq1 post_id st in
  let second := toggle_like rq2 post_id first.2 in
  status_code first.1 = HTTP_200_OK
  ∧ filter (for_pair u post_id) (likes first.2) ≠ ∅
  ∧ second.1 = removed_200
  ∧ likes second.2 = likes st
  ∧ posts second.2 = posts st
  ∧ comments second.2 = comments st.
Proof.
  intros Hc1 Hc2 Hpost Hkind Hsame He first second. subst first second.
  rewrite (toggle_like_creates rq1 u post_id st) by done. simpl.
  set (pk := fresh (issued st)).
  set (row := Like.mk u post_id (requested rq1) (now rq1)).
  assert (filter (for_pair u post_id) (<[pk := row]> (likes st)) = {[pk := row]})
    as Hs by (by apply filter_insert_fresh_pair).
  rewrite (toggle_like_removes rq2 u post_id _ pk row); try done;
    [|by rewrite Hsame].
  simpl. split_and!; try done.
  - rewrite Hs. intros Hemp.
    by apply (f_equal (λ m, m !! pk)) in Hemp;
      rewrite lookup_empty, lookup_singleton_eq in Hemp.
  - apply delete_insert_id. apply fresh_pk.
Qed.

(** X5.  [toggle_like] turns a request away before it looks at the post
    or at the kind: an anonymous request is answered 403 whatever its
    method; an authenticated request whose method is neither POST nor
    OPTIONS is answered 405, with a detail that names the method; an
    authenticated OPTIONS request is answered 200 by the framework.  None
    of them changes the database. *)
Theorem toggle_turned_away (request : Request) (post_id : nat) (st : Store) :
  (user request = None →
     toggle_like request post_id st = (forbidden_403, st))
  ∧ (is_Some (user request) →
     method request ≠ "POST" → method request ≠ "OPTIONS" →
     toggle_like request post_id st = (not_allowed_405 (method request), st))
  ∧ (is_Some (user request) → method request = "OPTIONS" →
     status_code (toggle_like request post_id st).1 = HTTP_200_OK
     ∧ (toggle_like request post_id st).2 = st).
Proof.
  unfold toggle_like, api_view, has_permission. split_and!.
  - intros ->. done.
  - intros [u ->] Hm Ho. simpl.
    rewrite bool_decide_false
      by (rewrite elem_of_cons, elem_of_nil; tauto).
    simpl. by rewrite bool_decide_false.
  - intros [u ->] Ho. simpl. rewrite Ho. done.
Qed.

Lemma run_toggles_choices calls st :
  reaction_choices st → reaction_choices (run_toggles calls st).
Proof.
  revert st. induction calls as [|[request post_id] calls IH]; intros st Hch.
  - done.
  - simpl. apply IH. by apply toggle_like_choices.
Qed.

(** X6.  The toggle never stores a kind other than a like or a dislike:
    from a table whose kinds are all likes and dislikes, any sequence of
    toggle requests leaves such a table, so that after it the reaction rows
    of every post are its likes plus its dislikes. *)
Theorem toggles_keep_choices (calls : list (Request * nat)) (st : Store) :
  reaction_choices st →
  reaction_choices (run_toggles calls st)
  ∧ ∀ p, count_reaction_rows (run_toggles calls st) p
         = count_reactions (run_toggles calls st) p Like.LIKE
           + count_reactions (run_toggles calls st) p Like.DISLIKE.
Proof.
  intros Hch. pose proof (run_toggles_choices calls st Hch) as Hrun.
  split; [done|]. intros p. by apply count_rows_split.
Qed.

(** * Every interleaving keeps the unique constraint *)

Lemma write_unique st pk row :
  unique_together st →
  filter (for_pair (Like.user row) (Like.post row)) (delete pk (likes st)) = ∅ →
  ∀ u p, size (filter (for_pair u p) (<[pk := row]> (likes st))) ≤ 1.
Proof.
  intros Huniq Hfree u p. rewrite map_filter_insert. case_decide as HP.
  - destruct HP as [Hu Hp]. simpl in *.
    rewrite <- insert_delete_eq, <- map_filter_delete.
    rewrite (for_pair_same_key (Like.user row) (Like.post row) u p) by done.
    by rewrite Hfree, insert_empty, map_size_singleton.
  - etrans; [apply size_filter_delete|apply Huniq].
Qed.

Lemma step_unique request u post_id pc st :
  unique_together st → unique_together (step request u post_id pc st).2.
Proof.
  intros Huniq. destruct pc as [| | | |like|r]; simpl; try done.
  - unfold get_object_or_404. destruct (posts st !! post_id); simpl; [|done].
    by destruct (negb _).
  - unfold Like_get. by destruct (map_to_list _) as [|? [|? ?]].
  - unfold Like_create. case_decide as He; simpl; [|done].
    intros u' p'. simpl. apply write_unique; [done|].
    by rewrite delete_id by apply fresh_pk.
  - unfold Like_get. by destruct (map_to_list _) as [|? [|? ?]].
  - case_decide; simpl.
    + intros u' p'. simpl. etrans; [apply size_filter_delete|apply Huniq].
    + unfold Like_save. case_decide as Hfree; simpl; [|done].
      case_decide; simpl; intros u' p'; simpl; by apply write_unique.
Qed.

Lemma step_comments request u post_id pc st :
  comments (step request u post_id pc st).2 = comments st.
Proof.
  destruct pc; simpl; try done.
  - unfold get_object_or_404. destruct (posts st !! post_id); simpl; [|done].
    by destruct (negb _).
  - unfold Like_get. by destruct (map_to_list _) as [|? [|? ?]].
  - unfold Like_create. by case_decide.
  - unfold Like_get. by destruct (map_to_list _) as [|? [|? ?]].
  - case_decide; [done|]. unfold Like_save. by repeat case_decide.
Qed.

Lemma pool_step_keeps c i :
  unique_together c.2 →
  unique_together (pool_step c i).2
  ∧ posts (pool_step c i).2 = posts c.2
  ∧ comments (pool_step c i).2 = comments c.2.
Proof.
  intros Huniq. unfold pool_step. destruct (c.1 !! i) as [r|]; [|done].
  simpl. split_and!.
  - by apply step_unique.
  - apply step_posts.
  - apply step_comments.
Qed.

Lemma pool_run_keeps schedule c :
  unique_together c.2 →
  unique_together (pool_run schedule c).2
  ∧ posts (pool_run schedule c).2 = posts c.2
  ∧ comments (pool_run schedule c).2 = comments c.2.
Proof.
  revert c. induction schedule as [|i schedule IH]; intros c Huniq; [done|].
  simpl. destruct (pool_step_keeps c i Huniq) as (Hu & Hp & Hm).
  destruct (IH _ Hu) as (Hu' & Hp' & Hm').
  split_and!; [done|congruence|congruence].
Qed.

(** X7.  However the database statements of any number of runs of
    [toggle_like] are interleaved, whatever their users, posts and kinds
    and wherever the runs stand, a table with at most one row for every
    pair keeps at most one row for every pair, and the posts and the
    comments are never touched. *)
Theorem interleaved_toggles_keep_unique (schedule : list nat)
    (runs : list Run) (st : Store) :
  unique_together st →
  let c := pool_run schedule (runs, st) in
  (∀ u p, size (filter (for_pair u p) (likes c.2)) ≤ 1)
  ∧ posts c.2 = posts st
  ∧ comments c.2 = comments st.
Proof.
  intros Huniq c. subst c.
  by destruct (pool_run_keeps schedule (runs, st) Huniq) as (Hu & Hp & Hm).
Qed.


(** * Two toggles of different kinds at once *)

Section duel.
Variables (u : User.t) (post_id : nat).

Lemma step_duel_idle ka na kb request a b st :
  valid_kind ka →
  requested request = ka → now request = na →
  is_Some (posts st !! post_id) →
  idle a → idle b →
  filter (for_pair u post_id) (likes st) = ∅ →
  duel_inv u post_id ka na kb
    (step request u post_id a st).1 b (step request u post_id a st).2.
Proof.
  intros Hkind Hreq Hnow [prow Hpost] Ha Hb He.
  destruct Ha as [->|[->| ->]]; simpl.
  - unfold get_object_or_404. rewrite Hpost, Hreq. simpl.
    rewrite bool_decide_true by (by rewrite valid_kind_elem). simpl.
    apply duel_idle; [right; by left|done|done].
  - rewrite (Like_get_empty _ _ _ He). simpl.
    apply duel_idle; [right; by right|done|done].
  - unfold Like_create. simpl. rewrite decide_True by done. simpl.
    eapply duel_created; [done|by left| |by rewrite Hreq, Hnow].
    simpl. rewrite map_filter_insert_True by done.
    by rewrite He, insert_empty.
Qed.

Lemma step_duel_waiting ka na kb request a b st like :
  valid_kind kb → ka ≠ kb →
  requested request = kb →
  is_Some (posts st !! post_id) →
  created a like → waiting b like →
  filter (for_pair u post_id) (likes st) = {[like.1 := like.2]} →
  like.2 = Like.mk u post_id ka na →
  duel_inv u post_id ka na kb
    a (step request u post_id b st).1 (step request u post_id b st).2.
Proof.
  intros Hkind Hne Hreq [prow Hpost] Ha Hb Hs Hrow.
  assert (Like_get u post_id st = (Ok like, st)) as Hget.
  { rewrite (Like_get_single _ _ _ _ _ Hs). by destruct like. }
  destruct Hb as [[->|[->| ->]]|[->| ->]]; simpl.
  - unfold get_object_or_404. rewrite Hpost, Hreq. simpl.
    rewrite bool_decide_true by (by rewrite valid_kind_elem). simpl.
    eapply duel_created; [done| |done|done]. left. right. by left.
  - rewrite Hget. simpl.
    eapply duel_created; [done| |done|done]. right. by right.
  - unfold Like_create. simpl. rewrite decide_False; simpl.
    + eapply duel_created; [done| |done|done]. right. by left.
    + rewrite Hs. intros Hemp.
      by apply (f_equal (λ m, m !! like.1)) in Hemp;
        rewrite lookup_empty, lookup_singleton_eq in Hemp.
  - rewrite Hget. simpl.
    eapply duel_created; [done| |done|done]. right. by right.
  - destruct like as [pk row]. simpl in *. subst row. simpl.
    rewrite decide_False by (by rewrite Hreq).
    rewrite (Like_save_loaded _ _ _ _ _ _ _ Hs). simpl. rewrite Hreq.
    eapply duel_changed; [done|done|]. simpl.
    by apply (filter_update_single u post_id _ pk (Like.mk u post_id ka na)).
Qed.

Lemma duel_either_sym ka na kb nb a b st :
  duel_either u post_id ka na kb nb a b st →
  duel_either u post_id kb nb ka na b a st.
Proof. intros [? [?|?]]; split; auto. Qed.

Lemma step_duel_either ka na kb nb request a b st :
  valid_kind ka → valid_kind kb → ka ≠ kb →
  requested request = ka → now request = na →
  duel_either u post_id ka na kb nb a b st →
  duel_either u post_id ka na kb nb
    (step request u post_id a st).1 b (step request u post_id a st).2.
Proof.
  intros Hka Hkb Hne Hreq Hnow [Hpost Hinv].
  split; [by rewrite step_posts|].
  destruct Hinv as [Hinv|Hinv].
  - destruct Hinv as [a b st Ha Hb He|a b st like Ha Hb Hs Hrow|a b st pk Ha Hb Hs].
    + left. by apply step_duel_idle.
    + rewrite Ha. left. by eapply duel_created.
    + rewrite Ha. left. by eapply duel_changed.
  - destruct Hinv as [b a st Hb Ha He|b a st like Hb Ha Hs Hrow|b a st pk Hb Ha Hs].
    + left. by apply step_duel_idle.
    + right. by eapply step_duel_waiting.
    + rewrite Ha. right. by eapply duel_changed.
Qed.

Lemma interleave_duel rqA rqB schedule c :
  valid_kind (requested rqA) → valid_kind (requested rqB) →
  requested rqA ≠ requested rqB →
  duel_either u post_id (requested rqA) (now rqA) (requested rqB) (now rqB)
    (pcA c) (pcB c) (db c) →
  let c' := interleave rqA rqB u post_id schedule c in
  duel_either u post_id (requested rqA) (now rqA) (requested rqB) (now rqB)
    (pcA c') (pcB c') (db c').
Proof.
  intros HA HB Hne. revert c.
  induction schedule as [|first schedule IH]; intros c Hc; [done|].
  simpl. apply IH. destruct first; simpl.
  - by apply step_duel_either.
  - apply duel_either_sym. apply step_duel_either; try done.
    by apply duel_either_sym.
Qed.

Lemma duel_rows ka na kb nb a b st :
  duel_either u post_id ka na kb nb a b st →
  size (filter (for_pair u post_id) (likes st)) ≤ 1
  ∧ (finished a → finished b →
     (∃ pk row, filter (for_pair u post_id) (likes st) = {[pk := row]}
        ∧ (row = Like.mk u post_id kb na ∨ row = Like.mk u post_id ka nb))
     ∧ ∃ ra rb, a = Finished ra ∧ b = Finished rb
         ∧ status_code ra = HTTP_200_OK ∧ status_code rb = HTTP_200_OK).
Proof.
  intros [_ [Hinv|Hinv]].
  - destruct Hinv as [a b st Ha Hb He|a b st like Ha Hb Hs Hrow|a b st pk Ha Hb Hs].
    + rewrite He, map_size_empty. split; [lia|].
      intros Hfa. by destruct Ha as [->|[->| ->]].
    + rewrite Hs, map_size_singleton. split; [lia|].
      intros _ Hfb. by destruct Hb as [[->|[->| ->]]|[->| ->]].
    + rewrite Hs, map_size_singleton. split; [lia|].
      intros _ _. split.
      * exists pk, (Like.mk u post_id kb na). split; [done|by left].
      * rewrite Ha, Hb. by eexists _, _.
  - destruct Hinv as [b a st Hb Ha He|b a st like Hb Ha Hs Hrow|b a st pk Hb Ha Hs].
    + rewrite He, map_size_empty. split; [lia|].
      intros Hfa. by destruct Ha as [->|[->| ->]].
    + rewrite Hs, map_size_singleton. split; [lia|].
      intros Hfa _. by destruct Ha as [[->|[->| ->]]|[->| ->]].
    + rewrite Hs, map_size_singleton. split; [lia|].
      intros _ _. split.
      * exists pk, (Like.mk u post_id ka nb). split; [done|by right].
      * rewrite Ha, Hb. by eexists _, _.
Qed.
End duel.

(** X8.  Two toggles of one user on one existing post with different
    valid kinds, started with no row for the pair and interleaved in any
    order, never leave two rows: at every point at most one row is stored,
    and once both have ended both were answered 200 and exactly one row is
    left, inserted by one run and carrying the kind of the other. *)
Theorem concurrent_opposite_toggles (rqA rqB : Request) (u : User.t)
    (post_id : nat) (st : Store) (schedule : list bool) :
  is_Some (posts st !! post_id) →
  filter (for_pair u post_id) (likes st) = ∅ →
  valid_kind (requested rqA) → valid_kind (requested rqB) →
  requested rqA ≠ requested rqB →
  let c := interleave rqA rqB u post_id schedule
             (mkRace AtPostLookup AtPostLookup st) in
  size (filter (for_pair u post_id) (likes (db c))) ≤ 1
  ∧ (finished (pcA c) → finished (pcB c) →
     (∃ pk row,
        filter (for_pair u post_id) (likes (db c)) = {[pk := row]}
        ∧ (row = Like.mk u post_id (requested rqB) (now rqA)
           ∨ row = Like.mk u post_id (requested rqA) (now rqB)))
     ∧ ∃ ra rb, pcA c = Finished ra ∧ pcB c = Finished rb
         ∧ status_code ra = HTTP_200_OK ∧ status_code rb = HTTP_200_OK).
Proof.
  intros Hpost He HA HB Hne c.
  apply (duel_rows u post_id (requested rqA) (now rqA) (requested rqB) (now rqB)).
  apply (interleave_duel u post_id rqA rqB schedule
           (mkRace AtPostLookup AtPostLookup st)); try done.
  split; [done|]. left. apply duel_idle; [by left|by left|done].
Qed.

(** * Who may change a post *)

Lemma get_object_found pk row st :
  posts st !! pk = Some row → get_object pk st = (Done (pk, row), st).
Proof. intros H. unfold get_object, lift, get_object_or_404. by rewrite H. Qed.

Lemma get_object_missing pk st :
  posts st !! pk = None → get_object pk st = (Failed (FromORM Http404), st).
Proof. intros H. unfold get_object, lift, get_object_or_404. by rewrite H. Qed.

Lemma get_user_reaction_reads context obj st :
  (get_user_reaction context obj st).2 = st.
Proof.
  unfold get_user_reaction, Like_get.
  destruct context as [rq|]; [|done]. destruct (user rq); [|done].
  by destruct (map_to_list _) as [|? [|? ?]].
Qed.

Lemma retrieve_reads request pk st : (retrieve request pk st).2 = st.
Proof.
  unfold retrieve, and_then.
  destruct (posts st !! pk) as [row|] eqn:Hp.
  - rewrite (get_object_found _ _ _ Hp). unfold lift.
    pose proof (get_user_reaction_reads (Some request) (pk, row) st) as Hr.
    destruct (get_user_reaction _ _ _) as [[?|?] ?]; simpl in *; done.
  - by rewrite (get_object_missing _ _ Hp).
Qed.

(** A handler's answer under [dispatch], when the request is permitted. *)
Lemma dispatch_permitted h st :
  dispatch true (Some h) st
  = match h st with
    | (Done code, st') => (code, st')
    | (Failed e, st') => (status_of e, st')
    end.
Proof. done. Qed.

Lemma update_outsider is_valid partial request pk row st :
  posts st !! pk = Some row →
  is_author (pk, row) request = false →
  update is_valid partial request pk st
  = (Failed (match is_valid partial (data request) with
             | None => ValidationError
             | Some _ => PermissionDenied
                           "Вы можете редактировать только свои публикации"
             end), st).
Proof.
  intros Hp Ha. unfold update, and_then. rewrite (get_object_found _ _ _ Hp).
  destruct (is_valid partial (data request)); [|done].
  unfold perform_update, and_then. rewrite (get_object_found _ _ _ Hp).
  by rewrite Ha.
Qed.

Lemma destroy_outsider request pk row st :
  posts st !! pk = Some row →
  is_author (pk, row) request = false →
  destroy request pk st
  = (Failed (PermissionDenied "Вы можете удалять только свои публикации"), st).
Proof.
  intros Hp Ha. unfold destroy, and_then. rewrite (get_object_found _ _ _ Hp).
  unfold perform_destroy. by rewrite Ha.
Qed.

Lemma update_missing is_valid partial request pk st :
  posts st !! pk = None →
  update is_valid partial request pk st = (Failed (FromORM Http404), st).
Proof.
  intros Hp. unfold update, and_then. by rewrite (get_object_missing _ _ Hp).
Qed.

Lemma destroy_missing request pk st :
  posts st !! pk = None →
  destroy request pk st = (Failed (FromORM Http404), st).
Proof.
  intros Hp. unfold destroy, and_then. by rewrite (get_object_missing _ _ Hp).
Qed.

(** X9.  Only its author changes a post through [PostDetailView]: a
    request of anyone else, anonymous or authenticated, with any method and
    any body, leaves the whole database as it was, and so does every GET,
    HEAD and OPTIONS request, the author's included. *)
Theorem only_author_changes_post
    (is_valid : bool → list (string * string) → option PostData)
    (request : Request) (pk : nat) (st : Store) :
  ((∀ row, posts st !! pk = Some row → is_author (pk, row) request = false) →
     (PostDetailView is_valid request pk st).2 = st)
  ∧ (method request ∈ SAFE_METHODS →
     (PostDetailView is_valid request pk st).2 = st).
Proof.
  assert (∀ partial,
    (∀ row, posts st !! pk = Some row → is_author (pk, row) request = false) →
    (dispatch true (Some (update is_valid partial request pk)) st).2 = st)
    as Hupdate.
  { intros partial Hout. rewrite dispatch_permitted.
    destruct (posts st !! pk) as [row|] eqn:Hp.
    - by rewrite (update_outsider _ _ _ _ _ _ Hp (Hout row eq_refl)).
    - by rewrite (update_missing _ _ _ _ _ Hp). }
  assert ((∀ row, posts st !! pk = Some row → is_author (pk, row) request = false) →
    (dispatch true (Some (destroy request pk)) st).2 = st) as Hdestroy.
  { intros Hout. rewrite dispatch_permitted.
    destruct (posts st !! pk) as [row|] eqn:Hp.
    - by rewrite (destroy_outsider _ _ _ _ Hp (Hout row eq_refl)).
    - by rewrite (destroy_missing _ _ _ Hp). }
  assert ((dispatch true (Some (retrieve request pk)) st).2 = st) as Hretrieve.
  { rewrite dispatch_permitted.
    pose proof (retrieve_reads request pk st) as Hr.
    by destruct (retrieve request pk st) as [[?|?] ?]. }
  unfold PostDetailView.
  destruct (IsAuthenticatedOrReadOnly request) eqn:Hperm; [|by split].
  split.
  - intros Hout. repeat case_decide; auto.
  - intros Hsafe. unfold SAFE_METHODS in Hsafe.
    rewrite !elem_of_cons, elem_of_nil in Hsafe.
    destruct Hsafe as [Hm|[Hm|[Hm|[]]]]; rewrite Hm; simpl; try done.
Qed.

Lemma is_author_pk row request u pk :
  user request = Some u →
  is_author (pk, row) request
  = bool_decide (User.pk (Post.author row) = User.pk u).
Proof. intros Hu. unfold is_author. by rewrite Hu. Qed.

Lemma permitted_authenticated request u :
  user request = Some u → IsAuthenticatedOrReadOnly request = true.
Proof.
  intros Hu. unfold IsAuthenticatedOrReadOnly. rewrite Hu.
  rewrite (bool_decide_true (is_Some (Some u))) by (by eexists).
  apply orb_true_r.
Qed.

(** X10.  An authenticated user who is not the author of an existing
    post is refused with 403 when deleting it, and when updating it with a
    body that passes validation; a body that fails validation is answered
    400 first.  In each case the database stays as it was. *)
Theorem outsider_is_refused
    (is_valid : bool → list (string * string) → option PostData)
    (request : Request) (u : User.t) (pk : nat) (row : Post.t) (st : Store) :
  user request = Some u →
  posts st !! pk = Some row →
  User.pk (Post.author row) ≠ User.pk u →
  (method request = "DELETE" →
     PostDetailView is_valid request pk st = (HTTP_403_FORBIDDEN, st))
  ∧ (method request = "PUT" →
     PostDetailView is_valid request pk st
     = (if is_valid false (data request) is Some _
        then HTTP_403_FORBIDDEN else HTTP_400_BAD_REQUEST, st))
  ∧ (method request = "PATCH" →
     PostDetailView is_valid request pk st
     = (if is_valid true (data request) is Some _
        then HTTP_403_FORBIDDEN else HTTP_400_BAD_REQUEST, st)).
Proof.
  intros Hu Hp Hne.
  assert (is_author (pk, row) request = false) as Ha.
  { rewrite (is_author_pk _ _ u) by done. by apply bool_decide_false. }
  unfold PostDetailView. rewrite (permitted_authenticated _ _ Hu).
  split_and!; intros ->; simpl; rewrite dispatch_permitted.
  - by rewrite (destroy_outsider _ _ _ _ Hp Ha).
  - rewrite (update_outsider _ _ _ _ _ _ Hp Ha).
    by destruct (is_valid false (data request)).
  - rewrite (update_outsider _ _ _ _ _ _ Hp Ha).
    by destruct (is_valid true (data request)).
Qed.

Lemma destroy_author request u pk row st :
  user request = Some u →
  posts st !! pk = Some row →
  User.pk (Post.author row) = User.pk u →
  destroy request pk st
  = (Done HTTP_204_NO_CONTENT, (Post_delete (pk, row) st).2).
Proof.
  intros Hu Hp Heq. unfold destroy, and_then.
  rewrite (get_object_found _ _ _ Hp). unfold perform_destroy.
  rewrite (is_author_pk _ _ u) by done.
  by rewrite bool_decide_true by done.
Qed.

Lemma PostDetailView_delete_author is_valid request u pk row st :
  method request = "DELETE" →
  user request = Some u →
  posts st !! pk = Some row →
  User.pk (Post.author row) = User.pk u →
  PostDetailView is_valid request pk st
  = (HTTP_204_NO_CONTENT, (Post_delete (pk, row) st).2).
Proof.
  intros Hm Hu Hp Heq. unfold PostDetailView.
  rewrite (permitted_authenticated _ _ Hu), Hm. simpl.
  rewrite dispatch_permitted. by rewrite (destroy_author _ u _ row).
Qed.

(** * What deleting a post takes with it *)

(** X11.  The author's DELETE of an existing post is answered 204 and
    removes that post together with every reaction and every comment on it,
    and nothing else: every other post, and every reaction and comment on
    another post, is kept as it was. *)
Theorem author_deletes_post
    (is_valid : bool → list (string * string) → option PostData)
    (request : Request) (u : User.t) (pk : nat) (row : Post.t) (st : Store) :
  method request = "DELETE" →
  user request = Some u →
  posts st !! pk = Some row →
  User.pk (Post.author row) = User.pk u →
  let code := (PostDetailView is_valid request pk st).1 in
  let st' := (PostDetailView is_valid request pk st).2 in
  code = HTTP_204_NO_CONTENT
  ∧ posts st' !! pk = None
  ∧ (∀ p, p ≠ pk → posts st' !! p = posts st !! p)
  ∧ (∀ k r, likes st' !! k = Some r
            ↔ likes st !! k = Some r ∧ Like.post r ≠ pk)
  ∧ (∀ k r, comments st' !! k = Some r
            ↔ comments st !! k = Some r ∧ Comment.post r ≠ pk).
Proof.
  intros Hm Hu Hp Heq code st'. subst code st'.
  rewrite (PostDetailView_delete_author _ _ u _ row) by done. simpl.
  split_and!.
  - done.
  - apply lookup_delete_eq.
  - intros p Hne. by apply lookup_delete_ne.
  - intros k r. rewrite map_lookup_filter_Some. unfold for_post. simpl. tauto.
  - intros k r. rewrite map_lookup_filter_Some. unfold comment_of. simpl. tauto.
Qed.

Lemma count_comments_size st p :
  count_comments st p = size (filter (comment_of p) (comments st)).
Proof. unfold count_comments. by rewrite size_filter_list. Qed.

Lemma Post_delete_unique instance st :
  unique_together st → unique_together (Post_delete instance st).2.
Proof.
  intros Huniq u p. simpl. rewrite map_filter_comm.
  etrans; [|apply (Huniq u p)].
  apply map_subseteq_size, map_filter_subseteq.
Qed.

Lemma Post_delete_reactions instance st p k :
  count_reactions (Post_delete instance st).2 p k
  = if decide (p = instance.1) then 0 else count_reactions st p k.
Proof.
  rewrite !count_reactions_size. simpl. case_decide as Hp.
  - apply map_size_empty_iff, map_empty. intros i.
    apply map_lookup_filter_None. right. intros r Hr [Hpost _].
    apply map_lookup_filter_Some in Hr as [_ Hnot]. apply Hnot.
    unfold for_post. simpl in *. congruence.
  - f_equal. apply map_filter_filter_l. intros i r _ [Hpost _].
    unfold for_post. simpl in *. congruence.
Qed.

Lemma Post_delete_comments instance st p :
  count_comments (Post_delete instance st).2 p
  = if decide (p = instance.1) then 0 else count_comments st p.
Proof.
  rewrite !count_comments_size. simpl. case_decide as Hp.
  - apply map_size_empty_iff, map_empty. intros i.
    apply map_lookup_filter_None. right. intros r Hr Hpost.
    apply map_lookup_filter_Some in Hr as [_ Hnot]. apply Hnot.
    unfold comment_of in *. simpl in *. congruence.
  - f_equal. apply map_filter_filter_l. intros i r _ Hpost.
    unfold comment_of in *. simpl in *. congruence.
Qed.

(** X12.  After its author deleted a post, [post_stats] and every toggle
    call on it are answered 404; the counts of every other post are what
    they were, and a table with at most one reaction row for every pair
    still has at most one. *)
Theorem deleted_post_is_gone
    (is_valid : bool → list (string * string) → option PostData)
    (request : Request) (u : User.t) (pk : nat) (row : Post.t) (st : Store) :
  method request = "DELETE" →
  user request = Some u →
  posts st !! pk = Some row →
  User.pk (Post.author row) = User.pk u →
  let st' := (PostDetailView is_valid request pk st).2 in
  (∀ rq, method rq = "GET" →
     status_code (post_stats rq pk st').1 = HTTP_404_NOT_FOUND)
  ∧ (∀ rq v, toggle_call rq v →
     status_code (toggle_like rq pk st').1 = HTTP_404_NOT_FOUND
     ∧ (toggle_like rq pk st').2 = st')
  ∧ (∀ p k, p ≠ pk → count_reactions st' p k = count_reactions st p k)
  ∧ (∀ p, p ≠ pk → count_comments st' p = count_comments st p)
  ∧ (unique_together st → unique_together st').
Proof.
  intros Hm Hu Hp Heq st'. subst st'.
  rewrite (PostDetailView_delete_author _ _ u _ row) by done.
  cbn [snd].
  assert (posts (Post_delete (pk, row) st).2 !! pk = None) as Hgone
    by apply lookup_delete_eq.
  split_and!.
  - intros rq Hget. by rewrite post_stats_missing.
  - intros rq v Hcall.
    destruct (toggle_like_path rq v pk (Post_delete (pk, row) st).2 Hcall)
      as [_|Hq _|? ? Hq|? ? Hq|? ? ? Hq|Hq]; try done;
      rewrite Hgone in Hq; by destruct Hq.
  - intros p k Hne. rewrite Post_delete_reactions. simpl.
    by rewrite decide_False.
  - intros p Hne. rewrite Post_delete_comments. simpl.
    by rewrite decide_False.
  - apply Post_delete_unique.
Qed.

(** * What an update can change *)

(** X13.  The author's PUT or PATCH of an existing post with a body that
    passes validation is answered 200 and rewrites, in that one post, the
    fields the validated data carries among the text, the location name,
    the latitude and the longitude, and nothing else: a field the data
    leaves out, the author and the creation time stay, and so do all other
    posts, all reactions and all comments. *)
Theorem author_updates_post
    (is_valid : bool → list (string * string) → option PostData)
    (request : Request) (u : User.t) (pk : nat) (row : Post.t) (st : Store)
    (partial : bool) (validated : PostData) :
  method request = (if partial then "PATCH" else "PUT") →
  user request = Some u →
  posts st !! pk = Some row →
  User.pk (Post.author row) = User.pk u →
  is_valid partial (data request) = Some validated →
  let code := (PostDetailView is_valid request pk st).1 in
  let st' := (PostDetailView is_valid request pk st).2 in
  code = HTTP_200_OK
  ∧ (∃ row', posts st' !! pk = Some row'
       ∧ Post.author row' = Post.author row
       ∧ Post.created_at row' = Post.created_at row
       ∧ Post.text row' = default (Post.text row) (data_text validated)
       ∧ Post.location_name row'
         = default (Post.location_name row) (data_location_name validated)
       ∧ Post.latitude row'
         = default (Post.latitude row) (data_latitude validated)
       ∧ Post.longitude row'
         = default (Post.longitude row) (data_longitude validated))
  ∧ (∀ p, p ≠ pk → posts st' !! p = posts st !! p)
  ∧ likes st' = likes st
  ∧ comments st' = comments st
  ∧ queries st' = queries st.
Proof.
  intros Hm Hu Hp Heq Hv code st'. subst code st'.
  assert (PostDetailView is_valid request pk st
          = (HTTP_200_OK, (Post_save (assign (pk, row) validated) st).2)) as ->.
  { unfold PostDetailView. rewrite (permitted_authenticated _ _ Hu), Hm.
    assert (update is_valid partial request pk st
            = (Done HTTP_200_OK, (Post_save (assign (pk, row) validated) st).2))
      as Hupd.
    { unfold update, and_then. rewrite (get_object_found _ _ _ Hp), Hv.
      unfold perform_update, and_then. rewrite (get_object_found _ _ _ Hp).
      rewrite (is_author_pk _ _ u) by done.
      by rewrite bool_decide_true by done. }
    destruct partial; simpl; rewrite dispatch_permitted; by rewrite Hupd. }
  simpl. split_and!; try done.
  - eexists. split; [apply lookup_insert_eq|done].
  - intros p Hne. by apply lookup_insert_ne.
Qed.

(** * Comments *)

Lemma permitted_comment request u :
  user request = Some u → has_permission IsAuthenticated request = true.
Proof.
  intros Hu. unfold has_permission. rewrite Hu.
  apply bool_decide_true. by eexists.
Qed.

Lemma fresh_comment (m : gmap nat Comment.t) : m !! fresh (dom m) = None.
Proof. apply not_elem_of_dom. apply is_fresh. Qed.

Lemma size_filter_comment_insert p (m : gmap nat Comment.t) pk row :
  m !! pk = None →
  size (filter (comment_of p) (<[pk := row]> m))
  = size (filter (comment_of p) m)
    + (if decide (Comment.post row = p) then 1 else 0).
Proof.
  intros Hl. case_decide as Hp.
  - rewrite map_filter_insert_True by done.
    rewrite map_size_insert_None; [lia|].
    apply map_lookup_filter_None. by left.
  - rewrite map_filter_insert_False by done.
    rewrite delete_id by done. lia.
Qed.

(** X14.  A POST of an authenticated user to [CommentCreateView] for an
    existing post, with a body that passes validation, is answered 201 and
    adds exactly one comment, under an unused key, whose author is the
    caller, whose post is the addressed one and whose text is the validated
    one.  All earlier comments, the reactions and the posts stay, the
    comment count of the post grows by one, and [post_stats] reports it. *)
Theorem comment_is_created
    (is_valid : list (string * string) → option string)
    (request : Request) (u : User.t) (post_id : nat) (st : Store)
    (text : string) :
  method request = "POST" →
  user request = Some u →
  is_Some (posts st !! post_id) →
  is_valid (data request) = Some text →
  let code := (CommentCreateView is_valid request post_id st).1 in
  let st' := (CommentCreateView is_valid request post_id st).2 in
  code = HTTP_201_CREATED
  ∧ (∃ pk, comments st !! pk = None
       ∧ comments st'
         = <[pk := Comment.mk u post_id text (now request)]> (comments st))
  ∧ likes st' = likes st
  ∧ posts st' = posts st
  ∧ queries st' = queries st
  ∧ count_comments st' post_id = S (count_comments st post_id)
  ∧ (∀ p, p ≠ post_id → count_comments st' p = count_comments st p)
  ∧ (∀ rq, method rq = "GET" →
       dict_lookup (body (post_stats rq post_id st').1) "comments_count"
       = Some (JNum (S (count_comments st post_id)))).
Proof.
  intros Hm Hu [prow Hp] Hv code st'. subst code st'.
  set (row := Comment.mk u post_id text (now request)).
  assert (CommentCreateView is_valid request post_id st
          = (HTTP_201_CREATED, (Comment_create row st).2)) as ->.
  { unfold CommentCreateView. rewrite (permitted_comment _ _ Hu), Hm. simpl.
    rewrite dispatch_permitted. unfold create. rewrite Hv.
    unfold and_then, perform_create, and_then, lift, get_object_or_404.
    by rewrite Hp, Hu. }
  cbn [fst snd].
  assert (count_comments (Comment_create row st).2 post_id
          = S (count_comments st post_id)) as Hcount.
  { rewrite !count_comments_size. simpl.
    rewrite size_filter_comment_insert by apply fresh_comment.
    simpl. rewrite decide_True by done. lia. }
  split_and!; try done.
  - eexists. split; [apply fresh_comment|done].
  - intros p Hne. rewrite !count_comments_size. simpl.
    rewrite size_filter_comment_insert by apply fresh_comment.
    simpl. rewrite decide_False by done. lia.
  - intros rq Hget.
    rewrite post_stats_found; [|done|by (simpl; rewrite Hp)].
    rewrite Hcount. done.
Qed.

(** X15.  [CommentCreateView] turns a request away in this order, and
    leaves the database as it was each time: an anonymous request is
    answered 403; an authenticated request that is neither POST nor OPTIONS
    405; a POST whose body fails validation 400, whether or not the post
    exists; a POST with a valid body for a post that is not there 404. *)
Theorem comment_is_refused
    (is_valid : list (string * string) → option string)
    (request : Request) (post_id : nat) (st : Store) :
  (user request = None →
     CommentCreateView is_valid request post_id st = (HTTP_403_FORBIDDEN, st))
  ∧ (is_Some (user request) →
     method request ≠ "POST" → method request ≠ "OPTIONS" →
     CommentCreateView is_valid request post_id st
     = (HTTP_405_METHOD_NOT_ALLOWED, st))
  ∧ (is_Some (user request) → method request = "POST" →
     is_valid (data request) = None →
     CommentCreateView is_valid request post_id st
     = (HTTP_400_BAD_REQUEST, st))
  ∧ (is_Some (user request) → method request = "POST" →
     is_Some (is_valid (data request)) → posts st !! post_id = None →
     CommentCreateView is_valid request post_id st
     = (HTTP_404_NOT_FOUND, st)).
Proof.
  unfold CommentCreateView. split_and!.
  - intros Hu. unfold has_permission. by rewrite Hu.
  - intros [u Hu] Hpost Hopt. rewrite (permitted_comment _ _ Hu).
    by rewrite !decide_False by done.
  - intros [u Hu] Hm Hv. rewrite (permitted_comment _ _ Hu), Hm. simpl.
    rewrite dispatch_permitted. unfold create. by rewrite Hv.
  - intros [u Hu] Hm [text Hv] Hp. rewrite (permitted_comment _ _ Hu), Hm.
    simpl. rewrite dispatch_permitted. unfold create. rewrite Hv.
    unfold and_then, perform_create, and_then, lift, get_object_or_404.
    by rewrite Hp.
Qed.

(** * The further properties on the examples *)

Lemma toggle_read_back_witness :
  let request := Example.toggle_request Example.user1 "dislike" 8 in
  let obj := (7, Example.the_post) in
  ∃ prev,
    get_user_reaction (Some request) obj Example.liked = (Ok prev, Example.liked)
    ∧ get_user_reaction (Some request) obj
        (toggle_like request 7 Example.liked).2
      = (Ok (toggled prev (requested request)),
         (toggle_like request 7 Example.liked).2).
Proof.
  apply (toggle_read_back (Example.toggle_request Example.user1 "dislike" 8)
           (Example.toggle_request Example.user1 "dislike" 8)
           Example.user1 7 Example.the_post Example.liked).
  - split; reflexivity.
  - vm_compute. reflexivity.
  - right. reflexivity.
  - apply unique_together_checked. vm_compute. reflexivity.
  - reflexivity.
Defined.

Lemma toggle_leaves_other_readers_witness :
  let request := Example.toggle_request Example.user2 "dislike" 8 in
  let reader := Example.toggle_request Example.user1 "like" 8 in
  (get_user_reaction (Some reader) (7, Example.the_post)
     (toggle_like request 7 Example.liked).2).1
  = (get_user_reaction (Some reader) (7, Example.the_post) Example.liked).1.
Proof.
  apply (toggle_leaves_other_readers
           (Example.toggle_request Example.user2 "dislike" 8)
           (Example.toggle_request Example.user1 "like" 8)
           Example.user1 7 (7, Example.the_post) Example.liked).
  - reflexivity.
  - intros u Hu [Hpk _]. injection Hu as <-. vm_compute in Hpk. discriminate.
Defined.

Lemma toggle_moves_counts_witness :
  let request := Example.toggle_request Example.user1 "dislike" 8 in
  let obj := (7, Example.the_post) in
  let st' := (toggle_like request 7 Example.liked).2 in
  let prev := Some "like" in
  let next := toggled prev (requested request) in
  get_likes_count obj st' + counts_as prev Like.LIKE
    = get_likes_count obj Example.liked + counts_as next Like.LIKE
  ∧ get_dislikes_count obj st' + counts_as prev Like.DISLIKE
    = get_dislikes_count obj Example.liked + counts_as next Like.DISLIKE
  ∧ (∀ obj, obj.1 ≠ 7 →
       get_likes_count obj st' = get_likes_count obj Example.liked
       ∧ get_dislikes_count obj st' = get_dislikes_count obj Example.liked)
  ∧ (∀ p, count_comments st' p = count_comments Example.liked p).
Proof.
  apply (toggle_moves_counts
           (Example.toggle_request Example.user1 "dislike" 8)
           Example.user1 7 Example.the_post Example.liked (Some "like")).
  - split; reflexivity.
  - vm_compute. reflexivity.
  - right. reflexivity.
  - apply unique_together_checked. vm_compute. reflexivity.
  - vm_compute. reflexivity.
Defined.

Lemma toggle_twice_restores_witness :
  let rq1 := Example.toggle_request Example.user1 "like" 5 in
  let rq2 := Example.toggle_request Example.user1 "like" 6 in
  let first := toggle_like rq1 7 Example.fresh_post in
  let second := toggle_like rq2 7 first.2 in
  status_code first.1 = HTTP_200_OK
  ∧ filter (for_pair Example.user1 7) (likes first.2) ≠ ∅
  ∧ second.1 = removed_200
  ∧ likes second.2 = likes Example.fresh_post
  ∧ posts second.2 = posts Example.fresh_post
  ∧ comments second.2 = comments Example.fresh_post.
Proof.
  apply (toggle_twice_restores
           (Example.toggle_request Example.user1 "like" 5)
           (Example.toggle_request Example.user1 "like" 6)
           Example.user1 7 Example.fresh_post).
  - split; reflexivity.
  - split; reflexivity.
  - eexists. vm_compute. reflexivity.
  - left. reflexivity.
  - reflexivity.
  - vm_compute. reflexivity.
Defined.

Lemma toggle_turned_away_witness :
  toggle_like (Scenario.anonymous_request "POST") 7 Example.liked
    = (forbidden_403, Example.liked)
  ∧ toggle_like (Scenario.delete_request Example.user1) 7 Example.liked
    = (not_allowed_405 "DELETE", Example.liked)
  ∧ (status_code
       (toggle_like (Scenario.options_request Example.user1) 7 Example.liked).1
     = HTTP_200_OK
     ∧ (toggle_like (Scenario.options_request Example.user1) 7 Example.liked).2
       = Example.liked).
Proof.
  split; [|split].
  - apply (proj1 (toggle_turned_away (Scenario.anonymous_request "POST") 7
                    Example.liked)).
    reflexivity.
  - apply (proj1 (proj2 (toggle_turned_away
                           (Scenario.delete_request Example.user1) 7
                           Example.liked))).
    + eexists. reflexivity.
    + vm_compute. discriminate.
    + vm_compute. discriminate.
  - apply (proj2 (proj2 (toggle_turned_away
                           (Scenario.options_request Example.user1) 7
                           Example.liked))).
    + eexists. reflexivity.
    + reflexivity.
Defined.

Lemma toggles_keep_choices_witness :
  reaction_choices (run_toggles Example.calls Example.busy)
  ∧ ∀ p, count_reaction_rows (run_toggles Example.calls Example.busy) p
         = count_reactions (run_toggles Example.calls Example.busy) p Like.LIKE
           + count_reactions (run_toggles Example.calls Example.busy) p
               Like.DISLIKE.
Proof.
  apply (toggles_keep_choices Example.calls Example.busy).
  apply reaction_choices_checked. vm_compute. reflexivity.
Defined.

Lemma interleaved_toggles_keep_unique_witness :
  let c := pool_run Scenario.schedule (Scenario.runs, Scenario.two_posts) in
  (∀ u p, size (filter (for_pair u p) (likes c.2)) ≤ 1)
  ∧ posts c.2 = posts Scenario.two_posts
  ∧ comments c.2 = comments Scenario.two_posts.
Proof.
  apply (interleaved_toggles_keep_unique Scenario.schedule Scenario.runs
           Scenario.two_posts).
  apply unique_together_checked. vm_compute. reflexivity.
Defined.

Lemma concurrent_opposite_toggles_witness :
  let c := Scenario.duel Example.contended in
  size (filter (for_pair Example.user1 7) (likes (db c))) ≤ 1
  ∧ (finished (pcA c) → finished (pcB c) →
     (∃ pk row,
        filter (for_pair Example.user1 7) (likes (db c)) = {[pk := row]}
        ∧ (row = Like.mk Example.user1 7 "dislike" 5
           ∨ row = Like.mk Example.user1 7 "like" 6))
     ∧ ∃ ra rb, pcA c = Finished ra ∧ pcB c = Finished rb
         ∧ status_code ra = HTTP_200_OK ∧ status_code rb = HTTP_200_OK).
Proof.
  apply (concurrent_opposite_toggles
           (Example.toggle_request Example.user1 "like" 5)
           (Example.toggle_request Example.user1 "dislike" 6)
           Example.user1 7 Example.fresh_post Example.contended).
  - eexists. vm_compute. reflexivity.
  - vm_compute. reflexivity.
  - left. reflexivity.
  - right. reflexivity.
  - vm_compute. discriminate.
Defined.

Lemma only_author_changes_post_witness :
  (PostDetailView Scenario.post_valid
     (Scenario.put_request Example.user2 "mine now") 7 Scenario.two_posts).2
    = Scenario.two_posts
  ∧ (PostDetailView Scenario.post_valid
       (mkRequest "GET" (Some Example.user1) [] 9) 7 Scenario.two_posts).2
    = Scenario.two_posts.
Proof.
  split.
  - apply (proj1 (only_author_changes_post Scenario.post_valid
                    (Scenario.put_request Example.user2 "mine now") 7
                    Scenario.two_posts)).
    intros row Hrow. vm_compute in Hrow. injection Hrow as <-.
    vm_compute. reflexivity.
  - apply (proj2 (only_author_changes_post Scenario.post_valid
                    (mkRequest "GET" (Some Example.user1) [] 9) 7
                    Scenario.two_posts)).
    vm_compute. left.
Defined.

Lemma outsider_is_refused_witness :
  PostDetailView Scenario.post_valid (Scenario.delete_request Example.user2) 7
    Scenario.two_posts
  = (HTTP_403_FORBIDDEN, Scenario.two_posts).
Proof.
  refine (proj1 (outsider_is_refused Scenario.post_valid
                   (Scenario.delete_request Example.user2) Example.user2 7
                   Scenario.first_post
                   Scenario.two_posts _ _ _) _).
  - reflexivity.
  - vm_compute. reflexivity.
  - vm_compute. discriminate.
  - reflexivity.
Defined.

Lemma author_deletes_post_witness :
  let request := Scenario.delete_request Example.user1 in
  let code := (PostDetailView Scenario.post_valid request 7
                 Scenario.two_posts).1 in
  let st' := (PostDetailView Scenario.post_valid request 7
                Scenario.two_posts).2 in
  code = HTTP_204_NO_CONTENT
  ∧ posts st' !! 7 = None
  ∧ (∀ p, p ≠ 7 → posts st' !! p = posts Scenario.two_posts !! p)
  ∧ (∀ k r, likes st' !! k = Some r
            ↔ likes Scenario.two_posts !! k = Some r ∧ Like.post r ≠ 7)
  ∧ (∀ k r, comments st' !! k = Some r
            ↔ comments Scenario.two_posts !! k = Some r ∧ Comment.post r ≠ 7).
Proof.
  apply (author_deletes_post Scenario.post_valid
           (Scenario.delete_request Example.user1) Example.user1 7
           Scenario.first_post Scenario.two_posts).
  - reflexivity.
  - reflexivity.
  - vm_compute. reflexivity.
  - reflexivity.
Defined.

Lemma deleted_post_is_gone_witness :
  let request := Scenario.delete_request Example.user1 in
  let st' := (PostDetailView Scenario.post_valid request 7
                Scenario.two_posts).2 in
  (∀ rq, method rq = "GET" →
     status_code (post_stats rq 7 st').1 = HTTP_404_NOT_FOUND)
  ∧ (∀ rq v, toggle_call rq v →
     status_code (toggle_like rq 7 st').1 = HTTP_404_NOT_FOUND
     ∧ (toggle_like rq 7 st').2 = st')
  ∧ (∀ p k, p ≠ 7 →
       count_reactions st' p k = count_reactions Scenario.two_posts p k)
  ∧ (∀ p, p ≠ 7 → count_comments st' p = count_comments Scenario.two_posts p)
  ∧ (unique_together Scenario.two_posts → unique_together st').
Proof.
  apply (deleted_post_is_gone Scenario.post_valid
           (Scenario.delete_request Example.user1) Example.user1 7
           Scenario.first_post Scenario.two_posts).
  - reflexivity.
  - reflexivity.
  - vm_compute. reflexivity.
  - reflexivity.
Defined.

Lemma author_updates_post_witness :
  let request := Scenario.move_request Example.user1 in
  let row := Scenario.first_post in
  let validated :=
    mkPostData None (Some "Moscow")
      (Some (Some 55.75%float)) (Some (Some 37.5%float)) in
  let code := (PostDetailView Scenario.post_valid request 7
                 Scenario.two_posts).1 in
  let st' := (PostDetailView Scenario.post_valid request 7
                Scenario.two_posts).2 in
  code = HTTP_200_OK
  ∧ (∃ row', posts st' !! 7 = Some row'
       ∧ Post.author row' = Post.author row
       ∧ Post.created_at row' = Post.created_at row
       ∧ Post.text row' = default (Post.text row) (data_text validated)
       ∧ Post.location_name row'
         = default (Post.location_name row) (data_location_name validated)
       ∧ Post.latitude row'
         = default (Post.latitude row) (data_latitude validated)
       ∧ Post.longitude row'
         = default (Post.longitude row) (data_longitude validated))
  ∧ (∀ p, p ≠ 7 → posts st' !! p = posts Scenario.two_posts !! p)
  ∧ likes st' = likes Scenario.two_posts
  ∧ comments st' = comments Scenario.two_posts
  ∧ queries st' = queries Scenario.two_posts.
Proof.
  apply (author_updates_post Scenario.post_valid
           (Scenario.move_request Example.user1) Example.user1 7
           Scenario.first_post Scenario.two_posts true
           (mkPostData None (Some "Moscow")
              (Some (Some 55.75%float)) (Some (Some 37.5%float)))).
  - reflexivity.
  - reflexivity.
  - vm_compute. reflexivity.
  - reflexivity.
  - vm_compute. reflexivity.
Defined.

Lemma comment_is_created_witness :
  let request := Scenario.comment_request Example.user2 "great" in
  let code := (CommentCreateView Scenario.comment_valid request 7
                 Scenario.two_posts).1 in
  let st' := (CommentCreateView Scenario.comment_valid request 7
                Scenario.two_posts).2 in
  code = HTTP_201_CREATED
  ∧ (∃ pk, comments Scenario.two_posts !! pk = None
       ∧ comments st'
         = <[pk := Comment.mk Example.user2 7 "great" (now request)]>
             (comments Scenario.two_posts))
  ∧ likes st' = likes Scenario.two_posts
  ∧ posts st' = posts Scenario.two_posts
  ∧ queries st' = queries Scenario.two_posts
  ∧ count_comments st' 7 = S (count_comments Scenario.two_posts 7)
  ∧ (∀ p, p ≠ 7 → count_comments st' p = count_comments Scenario.two_posts p)
  ∧ (∀ rq, method rq = "GET" →
       dict_lookup (body (post_stats rq 7 st').1) "comments_count"
       = Some (JNum (S (count_comments Scenario.two_posts 7)))).
Proof.
  apply (comment_is_created Scenario.comment_valid
           (Scenario.comment_request Example.user2 "great") Example.user2 7
           Scenario.two_posts "great").
  - reflexivity.
  - reflexivity.
  - eexists. vm_compute. reflexivity.
  - vm_compute. reflexivity.
Defined.

Lemma comment_is_refused_witness :
  CommentCreateView Scenario.comment_valid (Scenario.anonymous_request "POST")
    7 Scenario.two_posts = (HTTP_403_FORBIDDEN, Scenario.two_posts)
  ∧ CommentCreateView Scenario.comment_valid
      (Scenario.delete_request Example.user1) 7 Scenario.two_posts
    = (HTTP_405_METHOD_NOT_ALLOWED, Scenario.two_posts)
  ∧ CommentCreateView Scenario.comment_valid
      (Example.bare_request Example.user1 9) 9 Scenario.two_posts
    = (HTTP_400_BAD_REQUEST, Scenario.two_posts)
  ∧ CommentCreateView Scenario.comment_valid
      (Scenario.comment_request Example.user1 "lost") 9 Scenario.two_posts
    = (HTTP_404_NOT_FOUND, Scenario.two_posts).
Proof.
  split_and!.
  - apply (proj1 (comment_is_refused Scenario.comment_valid
                    (Scenario.anonymous_request "POST") 7 Scenario.two_posts)).
    reflexivity.
  - apply (proj1 (proj2 (comment_is_refused Scenario.comment_valid
                    (Scenario.delete_request Example.user1) 7
                    Scenario.two_posts))).
    + eexists. reflexivity.
    + vm_compute. discriminate.
    + vm_compute. discriminate.
  - apply (proj1 (proj2 (proj2 (comment_is_refused Scenario.comment_valid
                    (Example.bare_request Example.user1 9) 9
                    Scenario.two_posts)))).
    + eexists. reflexivity.
    + reflexivity.
    + vm_compute. reflexivity.
  - apply (proj2 (proj2 (proj2 (comment_is_refused Scenario.comment_valid
                    (Scenario.comment_request Example.user1 "lost") 9
                    Scenario.two_posts)))).
    + eexists. reflexivity.
    + reflexivity.
    + eexists. vm_compute. reflexivity.
    + vm_compute. reflexivity.
Defined.
